(** * Open Wegram Bot: the request router and the message relay

    A shallow embedding of the handler module of the repository (the
    file with [handleRequest], its variant with [处理请求], and the
    Cloudflare entry point [onRequest]) and the properties of its
    specification.

    Conventions of the embedding.
    - A JavaScript string is the list of its UTF-16 code units, so that
      [length] is the [.length] of the source and a character class
      such as [/[A-Z]/] is a test on code units.
    - A JavaScript number is a mathematical integer or [NaN]: chat and
      message identifiers are integers; the rounding of doubles beyond
      2^53 and the exponent notation of [toString] from 1e21 on are
      outside the model.
    - The remote Bot API is a black box: a function from the calls
      issued so far and the current call to its outcome.  Handlers are
      computations in a state-and-exception monad whose state is the
      trace of the calls issued; a rejected promise is a thrown error.
    - The regular expressions of the router are those of the host,
      taken as a parameter; an engine for the patterns with a plain
      prefix is given for the sample runs.
    - Logging ([console.error]) is not modelled. *)

From Stdlib Require Import ZArith NArith List String Ascii Lia DecimalPos.
From stdpp Require Import base option list gmap.
Import ListNotations.

Local Open Scope N_scope.

(* ------------------------------------------------------------------ *)
(** ** Strings *)

Abbreviation jsstr := (list N).

(** Code units of a UTF-8 encoded literal (the encoding of this file and
    of the sources).  A code point above the basic plane becomes a
    surrogate pair. *)
Fixpoint utf16 (bs : list N) : jsstr :=
  match bs with
  | [] => []
  | b1 :: r1 =>
    if b1 <? 128 then b1 :: utf16 r1
    else match r1 with
    | [] => [65533]
    | b2 :: r2 =>
      if b1 <? 224 then
        N.lor (N.shiftl (N.land b1 31) 6) (N.land b2 63) :: utf16 r2
      else match r2 with
      | [] => [65533]
      | b3 :: r3 =>
        if b1 <? 240 then
          N.lor (N.shiftl (N.land b1 15) 12)
            (N.lor (N.shiftl (N.land b2 63) 6) (N.land b3 63)) :: utf16 r3
        else match r3 with
        | [] => [65533]
        | b4 :: r4 =>
          let cp := N.lor (N.shiftl (N.land b1 7) 18)
                      (N.lor (N.shiftl (N.land b2 63) 12)
                         (N.lor (N.shiftl (N.land b3 63) 6) (N.land b4 63))) in
          let v := cp - 65536 in
          (55296 + N.shiftr v 10) :: (56320 + N.land v 1023) :: utf16 r4
        end
      end
    end
  end.

Definition js (s : string) : jsstr :=
  utf16 (map Byte.to_N (list_byte_of_string s)).

(** [a === b] on two strings. *)
Definition str_eqb (a b : jsstr) : bool := bool_decide (a = b).

(** A value that is a string or [undefined] ([None]). *)
Abbreviation strU := (option jsstr).

(** [ToString] of such a value, as a template literal and [parseInt]
    apply it. *)
Definition ToString (v : strU) : jsstr :=
  match v with
  | Some s => s
  | None => js "undefined"
  end.

(** [ToBoolean]: [undefined] and the empty string are falsy. *)
Definition truthy (v : strU) : bool :=
  match v with
  | Some (_ :: _) => true
  | _ => false
  end.

(** [a === b] where [a] is a string or [undefined] and [b] is a string
    or [null] (what [Headers.get] returns): [undefined] and [null] are
    different values, and both differ from every string. *)
Definition strict_equal (a : strU) (b : option jsstr) : bool :=
  match a, b with
  | Some x, Some y => str_eqb x y
  | _, _ => false
  end.

(** [Array.prototype.join] on strings. *)
Fixpoint join (sep : jsstr) (l : list jsstr) : jsstr :=
  match l with
  | [] => []
  | [x] => x
  | x :: r => x ++ sep ++ join sep r
  end.

Fixpoint is_prefix (p s : jsstr) : bool :=
  match p, s with
  | [], _ => true
  | _ :: _, [] => false
  | a :: p', b :: s' => (a =? b) && is_prefix p' s'
  end.

(** [String.prototype.split] with a non-empty string separator: the
    subject is cut at every occurrence of the separator, scanning from
    the left; [skip] counts the code units of an occurrence still to be
    passed over, [acc] is the piece being collected. *)
Fixpoint split_go (sep : jsstr) (skip : nat) (acc s : jsstr) : list jsstr :=
  match s with
  | [] => [acc]
  | c :: s' =>
    match skip with
    | S k => split_go sep k acc s'
    | O =>
      if is_prefix sep s then acc :: split_go sep (Nat.pred (length sep)) [] s'
      else split_go sep 0 (acc ++ [c]) s'
    end
  end.

Definition split (s sep : jsstr) : list jsstr := split_go sep 0 [] s.

(* ------------------------------------------------------------------ *)
(** ** Numbers *)

Inductive JsNum :=
| Int (z : Z)
| NaN.

Fixpoint uint_units (d : Decimal.uint) : jsstr :=
  match d with
  | Decimal.Nil => []
  | Decimal.D0 r => 48 :: uint_units r
  | Decimal.D1 r => 49 :: uint_units r
  | Decimal.D2 r => 50 :: uint_units r
  | Decimal.D3 r => 51 :: uint_units r
  | Decimal.D4 r => 52 :: uint_units r
  | Decimal.D5 r => 53 :: uint_units r
  | Decimal.D6 r => 54 :: uint_units r
  | Decimal.D7 r => 55 :: uint_units r
  | Decimal.D8 r => 56 :: uint_units r
  | Decimal.D9 r => 57 :: uint_units r
  end.

(** [Number.prototype.toString] on an integer: decimal digits, with a
    minus sign for a negative one.  This is the string of the source
    for a safe integer (below 2^53 in magnitude); the source writes
    the digits of a double beyond, and an exponent from 1e21 on. *)
Definition Number_toString (z : Z) : jsstr :=
  match Z.to_int z with
  | Decimal.Pos d => uint_units d
  | Decimal.Neg d => 45 :: uint_units d
  end.

(** White space and line terminators of ECMAScript, which [parseInt]
    strips from the front of its argument. *)
Definition is_space (c : N) : bool :=
  existsb (N.eqb c)
    [9; 10; 11; 12; 13; 32; 160; 5760; 8232; 8233; 8239; 8287; 12288; 65279]
  || ((8192 <=? c) && (c <=? 8202)).

Fixpoint trim_start (s : jsstr) : jsstr :=
  match s with
  | c :: r => if is_space c then trim_start r else s
  | [] => []
  end.

Definition digit_val (radix c : N) : option N :=
  let v :=
    if (48 <=? c) && (c <=? 57) then Some (c - 48)
    else if (97 <=? c) && (c <=? 122) then Some (c - 87)
    else if (65 <=? c) && (c <=? 90) then Some (c - 55)
    else None in
  match v with
  | Some d => if d <? radix then Some d else None
  | None => None
  end.

(** The longest prefix of digits, as a number; [None] when there is no
    digit at all. *)
Fixpoint parse_digits (radix : N) (acc : option N) (s : jsstr) : option N :=
  match s with
  | [] => acc
  | c :: r =>
    match digit_val radix c with
    | Some d => parse_digits radix (Some (radix * default 0 acc + d)) r
    | None => acc
    end
  end.

(** [parseInt(s)] with no radix argument: leading white space, a sign,
    a [0x]/[0X] prefix switching to radix 16, then the longest run of
    digits; [NaN] when that run is empty.  The value is the exact one:
    it is that of the source when it is a safe integer (below 2^53 in
    magnitude), beyond which the source rounds to a double. *)
Definition parseInt (s : jsstr) : JsNum :=
  let s1 := trim_start s in
  let '(neg, s2) :=
    match s1 with
    | 45 :: r => (true, r)
    | 43 :: r => (false, r)
    | _ => (false, s1)
    end in
  let '(radix, s3) :=
    match s2 with
    | 48 :: 120 :: r => (16, r)
    | 48 :: 88 :: r => (16, r)
    | _ => (10, s2)
    end in
  match parse_digits radix None s3 with
  | Some n => Int (if neg then - Z.of_N n else Z.of_N n)
  | None => NaN
  end.

(* ------------------------------------------------------------------ *)
(** ** Secret validation *)

(** [/[lo-hi]/.test(s)]: some code unit of [s] lies in the range. *)
Definition test_range (lo hi : N) (s : jsstr) : bool :=
  existsb (fun c => (lo <=? c) && (c <=? hi)) s.

(** [validateSecretToken(token)] on a string. *)
Definition validateSecretToken (token : jsstr) : bool :=
  (15 <? length token)%nat
  && test_range 65 90 token
  && test_range 97 122 token
  && test_range 48 57 token.

(* ------------------------------------------------------------------ *)
(** ** Values, requests and responses *)

(** The values that handlers build: bodies of remote calls and of JSON
    responses.  An object keeps its properties in insertion order. *)
#[warnings="-register-all"]
Inductive JsVal :=
| JUndef
| JBool (b : bool)
| JNum (n : JsNum)
| JStr (s : jsstr)
| JArr (l : list JsVal)
| JObj (props : list (jsstr * JsVal)).

(** Own property of an object value, [None] when it has none of that
    name. *)
Definition prop (v : JsVal) (k : jsstr) : option JsVal :=
  match v with
  | JObj props => snd <$> find (fun p => str_eqb (fst p) k) props
  | _ => None
  end.

Inductive ErrorName := TypeError | SyntaxError | NetworkError.

Record JsError := mkError { err_name : ErrorName; err_message : jsstr }.

(** Reading a property of [undefined]. *)
Definition undefined_read (k : string) : JsError :=
  mkError TypeError
    (js "Cannot read properties of undefined (reading '" ++ js k ++ js "')").

(** Reading a property of [null]. *)
Definition null_read (k : string) : JsError :=
  mkError TypeError
    (js "Cannot read properties of null (reading '" ++ js k ++ js "')").

(** The inbound update, with the fields the handler reads, typed as the
    Bot API types them: a message always has a chat, whose [id] is an
    integer, and a [message_id]; a field the handler tests for absence
    ([message], [reply_to_message], [reply_markup], [inline_keyboard],
    [callback_data], [url], [text] and the names of the chat) is an
    [option]; a row of the keyboard may be empty. *)
Record Chat := mkChat {
  chat_id : Z;
  chat_username : strU;
  chat_first_name : strU;
  chat_last_name : strU
}.

Record InlineKeyboardButton := mkButton {
  btn_callback_data : strU;
  btn_url : strU
}.

Record ReplyMarkup := mkMarkup {
  inline_keyboard : option (list (list InlineKeyboardButton))
}.

Record RepliedMessage := mkReplied {
  reply_markup : option ReplyMarkup
}.

Record Message := mkMessage {
  message_id : Z;
  msg_chat : Chat;
  msg_text : strU;
  reply_to_message : option RepliedMessage
}.

(** What the body of a delivery decodes to: [null], of which no
    property can be read, or a value whose [message] is a message or
    missing (an object, and also a number, a string or an array, on
    which [.message] is [undefined]). *)
Inductive Update :=
| null_body
| mkUpdate (message : option Message).

(** Reading [update.message]. *)
Definition upd_message (update : Update) : JsError + option Message :=
  match update with
  | null_body => inl (null_read "message")
  | mkUpdate message => inr message
  end.

(** The parts of [new URL(request.url)] that the handlers read, and the
    port and query that they do not. *)
Record URL := mkURL {
  url_protocol : jsstr;
  url_hostname : jsstr;
  url_port : jsstr;
  url_pathname : jsstr;
  url_search : jsstr
}.

(** An inbound request: its URL, what
    [headers.get('X-Telegram-Bot-Api-Secret-Token')] returns ([None] is
    [null], the header is absent), and what [request.json()] settles
    to: the error it rejects with when the body does not decode, or
    the value decoded. *)
Record Request := mkRequest {
  req_url : URL;
  req_secret_header : option jsstr;
  req_json : JsError + Update
}.

Inductive Body :=
| Text (s : jsstr)
| Json (v : JsVal).

Record Response := mkResponse {
  status : nat;
  body : Body
}.

(** [new Response(text, {status})]; the status defaults to 200. *)
Definition new_Response (text : jsstr) (st : option nat) : Response :=
  mkResponse (default 200%nat st) (Text text).

(* ------------------------------------------------------------------ *)
(** ** The remote Bot API *)

Record ApiCall := mkCall {
  api_token : jsstr;
  api_method : jsstr;
  api_body : JsVal
}.

(** The address [fetch] is given. *)
Definition api_url (c : ApiCall) : jsstr :=
  js "https://api.telegram.org/bot" ++ api_token c ++ js "/" ++ api_method c.

(** The decoded body of a remote response. *)
Record ApiResult := mkResult {
  res_ok : bool;
  res_description : strU
}.

(** A remote response: the [ok] property of the [fetch] response (the
    HTTP status is in the 200s) and what its [json()] settles to. *)
Record ApiResponse := mkApiResponse {
  resp_ok : bool;
  resp_json : JsError + ApiResult
}.

(** [fetch] either rejects (transport failure) or resolves. *)
Inductive Outcome :=
| Rejected (e : JsError)
| Resolved (r : ApiResponse).

Abbreviation Trace := (list ApiCall).

(** The remote side: the outcome of a call, given the calls before it. *)
Abbreviation Remote := (Trace -> ApiCall -> Outcome).

(* ------------------------------------------------------------------ *)
(** ** Computations *)

Inductive Completion (A : Type) :=
| Normal (a : A)
| Throw (e : JsError).
Arguments Normal {A} a.
Arguments Throw {A} e.

(** A handler step: from the trace of calls issued so far to a
    completion and the extended trace. *)
Definition M (A : Type) : Type := Trace -> Completion A * Trace.

Definition ret {A} (a : A) : M A := fun tr => (Normal a, tr).

Definition throw {A} (e : JsError) : M A := fun tr => (Throw e, tr).

Definition bind {A B} (m : M A) (k : A -> M B) : M B :=
  fun tr =>
    match m tr with
    | (Normal a, tr') => k a tr'
    | (Throw e, tr') => (Throw e, tr')
    end.

(** [try { m } catch (error) { h error }]. *)
Definition try_catch {A} (m : M A) (h : JsError -> M A) : M A :=
  fun tr =>
    match m tr with
    | (Normal a, tr') => (Normal a, tr')
    | (Throw e, tr') => h e tr'
    end.

(** Settling a promise that is already decided. *)
Definition settle {A} (p : JsError + A) : M A :=
  match p with
  | inl e => throw e
  | inr a => ret a
  end.

Declare Scope js_scope.
Delimit Scope js_scope with js.
Notation "x <- m ;; k" := (bind m (fun x => k))
  (at level 100, m at next level, right associativity) : js_scope.
Notation "m ;;; k" := (bind m (fun _ => k))
  (at level 100, right associativity) : js_scope.
Local Open Scope js_scope.

(** What a run of a handler shows from outside. *)
Definition run {A} (m : M A) : Completion A * Trace := m [].

Definition calls {A} (r : Completion A * Trace) : Trace := snd r.

Definition status_of (r : Completion Response * Trace) : option nat :=
  match fst r with
  | Normal resp => Some (status resp)
  | Throw _ => None
  end.

(** A string or [undefined] as a value. *)
Definition of_strU (v : strU) : JsVal :=
  match v with
  | Some s => JStr s
  | None => JUndef
  end.

(** [jsonResponse(data, status)]; the status defaults to 200. *)
Definition jsonResponse (data : JsVal) (st : option nat) : Response :=
  mkResponse (default 200%nat st) (Json data).

(** The regular expressions of the host: [new RegExp(source)], which
    throws on a malformed source, and [subject.match(re)], which gives
    [null] ([None]) or the array of the whole match and the groups, a
    group that took no part being [undefined]. *)
Record RegExpEngine := mkEngine {
  RegExp : Type;
  new_RegExp : jsstr -> JsError + RegExp;
  String_match : jsstr -> RegExp -> option (list strU)
}.

(** [match[i]]. *)
Definition group (m : list strU) (i : nat) : strU := mjoin (m !! i).

(** A configuration or environment object with string properties. *)
Abbreviation Obj := (gmap jsstr jsstr).

(* ------------------------------------------------------------------ *)
(** ** The handler module *)

Section Handlers.

Variable remote : Remote.
Variable engine : RegExpEngine.

(** [postToTelegramApi(token, method, body)]: the call is recorded and
    the remote side decides its outcome. *)
Definition postToTelegramApi (token : strU) (method : jsstr) (body : JsVal)
  : M ApiResponse :=
  fun tr =>
    let call := mkCall (ToString token) method body in
    match remote tr call with
    | Rejected e => (Throw e, tr ++ [call])
    | Resolved r => (Normal r, tr ++ [call])
    end.

(** A call of [validateSecretToken]: reading [.length] of [undefined]
    throws. *)
Definition validateSecretToken_call (token : strU) : M bool :=
  match token with
  | Some t => ret (validateSecretToken t)
  | None => throw (undefined_read "length")
  end.

Definition handleInstall (request : Request)
    (ownerUid botToken prefix secretToken : strU) : M Response :=
  valid <- validateSecretToken_call secretToken ;;
  if negb valid then
    ret (jsonResponse (JObj [
      (js "success", JBool false);
      (js "message", JStr (js
        "密钥令牌必须至少包含16个字符，且包含大写字母、小写字母和数字。"))])
      (Some 400%nat))
  else
    let url := req_url request in
    let baseUrl := url_protocol url ++ js "//" ++ url_hostname url in
    let webhookUrl :=
      baseUrl ++ js "/" ++ ToString prefix ++ js "/webhook/"
        ++ ToString ownerUid ++ js "/" ++ ToString botToken in
    try_catch
      (response <- postToTelegramApi botToken (js "setWebhook") (JObj [
         (js "url", JStr webhookUrl);
         (js "allowed_updates", JArr [JStr (js "message")]);
         (js "secret_token", of_strU secretToken)]) ;;
       result <- settle (resp_json response) ;;
       if res_ok result then
         ret (jsonResponse (JObj [
           (js "success", JBool true);
           (js "message", JStr (js "Webhook 安装成功。"))]) None)
       else
         ret (jsonResponse (JObj [
           (js "success", JBool false);
           (js "message", JStr (js "Webhook 安装失败："
                                  ++ ToString (res_description result)))])
           (Some 400%nat)))
      (fun error =>
         ret (jsonResponse (JObj [
           (js "success", JBool false);
           (js "message", JStr (js "安装 webhook 时出错："
                                  ++ err_message error))])
           (Some 500%nat))).

Definition handleUninstall (botToken secretToken : strU) : M Response :=
  valid <- validateSecretToken_call secretToken ;;
  if negb valid then
    ret (jsonResponse (JObj [
      (js "success", JBool false);
      (js "message", JStr (js
        "密钥令牌必须至少包含16个字符，且包含大写字母、小写字母和数字。"))])
      (Some 400%nat))
  else
    try_catch
      (response <- postToTelegramApi botToken (js "deleteWebhook") (JObj []) ;;
       result <- settle (resp_json response) ;;
       if res_ok result then
         ret (jsonResponse (JObj [
           (js "success", JBool true);
           (js "message", JStr (js "Webhook 卸载成功。"))]) None)
       else
         ret (jsonResponse (JObj [
           (js "success", JBool false);
           (js "message", JStr (js "Webhook 卸载失败："
                                  ++ ToString (res_description result)))])
           (Some 400%nat)))
      (fun error =>
         ret (jsonResponse (JObj [
           (js "success", JBool false);
           (js "message", JStr (js "卸载 webhook 时出错："
                                  ++ err_message error))])
           (Some 500%nat))).

(** The relay marker read back in the reply branch: the
    [callback_data] of the first button of the first row and, when that
    is falsy, the second piece of its [url] cut at [tg://user?id=]. *)
Definition readSenderUid (row : list InlineKeyboardButton) : M strU :=
  match row with
  | [] => throw (undefined_read "callback_data")
  | b :: _ =>
    let senderUid := btn_callback_data b in
    if negb (truthy senderUid) then
      match btn_url b with
      | None => throw (undefined_read "split")
      | Some u => ret (split u (js "tg://user?id=") !! 1%nat)
      end
    else ret senderUid
  end.

(** The body of the reply-from-owner branch, before its [return]. *)
Definition relayReply (botToken : strU) (message : Message)
    (reply : RepliedMessage) : M unit :=
  match reply_markup reply with
  | Some rm =>
    match inline_keyboard rm with
    | Some (row :: _) =>
      senderUid <- readSenderUid row ;;
      postToTelegramApi botToken (js "copyMessage") (JObj [
        (js "chat_id", JNum (parseInt (ToString senderUid)));
        (js "from_chat_id", JNum (Int (chat_id (msg_chat message))));
        (js "message_id", JNum (Int (message_id message)))]) ;;;
      ret tt
    | _ => ret tt
    end
  | None => ret tt
  end.

(** The display name of the sender: [@username] when there is a
    username, else the first and last name that are present, joined by
    a space. *)
Definition senderNameOf (sender : Chat) : jsstr :=
  if truthy (chat_username sender) then
    js "@" ++ ToString (chat_username sender)
  else
    join (js " ")
      (ToString <$> filter (fun v => truthy v = true)
                      [chat_first_name sender; chat_last_name sender]).

(** The inner function [copyMessage(withUrl)] of the fresh-inbound
    branch. *)
Definition copyMessage (ownerUid botToken : strU) (message : Message)
    (senderName senderUid : jsstr) (withUrl : bool) : M ApiResponse :=
  let button :=
    if withUrl then
      [(js "text", JStr (js "🔓 来自: " ++ senderName ++ js " ("
                           ++ senderUid ++ js ")"));
       (js "callback_data", JStr senderUid);
       (js "url", JStr (js "tg://user?id=" ++ senderUid))]
    else
      [(js "text", JStr (js "🔏 来自: " ++ senderName ++ js " ("
                           ++ senderUid ++ js ")"));
       (js "callback_data", JStr senderUid)] in
  let ik := JArr [JArr [JObj button]] in
  postToTelegramApi botToken (js "copyMessage") (JObj [
    (js "chat_id", JNum (parseInt (ToString ownerUid)));
    (js "from_chat_id", JNum (Int (chat_id (msg_chat message))));
    (js "message_id", JNum (Int (message_id message)));
    (js "reply_markup", JObj [(js "inline_keyboard", ik)])]).

(** The fresh-inbound branch: the relay with the link and, when its
    response is not [ok], the relay without it. *)
Definition relayInbound (ownerUid botToken : strU) (message : Message)
  : M unit :=
  let sender := msg_chat message in
  let senderUid := Number_toString (chat_id sender) in
  let senderName := senderNameOf sender in
  response <- copyMessage ownerUid botToken message senderName senderUid true ;;
  if negb (resp_ok response) then
    copyMessage ownerUid botToken message senderName senderUid false ;;;
    ret tt
  else ret tt.

(** The condition of the reply-from-owner branch:
    [reply && message.chat.id.toString() === ownerUid]. *)
Definition ownerReply (ownerUid : strU) (message : Message)
  : option RepliedMessage :=
  match reply_to_message message with
  | Some reply =>
    if strict_equal ownerUid
         (Some (Number_toString (chat_id (msg_chat message))))
    then Some reply else None
  | None => None
  end.

(** The block under [try] in [handleWebhook]. *)
Definition handleWebhook_try (ownerUid botToken : strU) (message : Message)
  : M Response :=
  match ownerReply ownerUid message with
  | Some reply =>
    relayReply botToken message reply ;;;
    ret (new_Response (js "成功") None)
  | None =>
    if bool_decide (msg_text message = Some (js "/start")) then
      ret (new_Response (js "成功") None)
    else
      relayInbound ownerUid botToken message ;;;
      ret (new_Response (js "成功") None)
  end.

(** [handleWebhook] past its authentication gate. *)
Definition handleWebhook_accepted (request : Request)
    (ownerUid botToken : strU) : M Response :=
  update <- settle (req_json request) ;;
  message <- settle (upd_message update) ;;
  match message with
  | None => ret (new_Response (js "成功") None)
  | Some message =>
    try_catch (handleWebhook_try ownerUid botToken message)
      (fun error => ret (new_Response (js "内部服务器错误") (Some 500%nat)))
  end.

Definition handleWebhook (request : Request)
    (ownerUid botToken secretToken : strU) : M Response :=
  if negb (strict_equal secretToken (req_secret_header request)) then
    ret (new_Response (js "未授权") (Some 401%nat))
  else handleWebhook_accepted request ownerUid botToken.

Definition handleRequest (request : Request) (config : Obj) : M Response :=
  let prefix := config !! js "prefix" in
  let secretToken := config !! js "secretToken" in
  let path := url_pathname (req_url request) in
  INSTALL_PATTERN <- settle (new_RegExp engine
    (js "^/" ++ ToString prefix ++ js "/install/([^/]+)/([^/]+)$")) ;;
  UNINSTALL_PATTERN <- settle (new_RegExp engine
    (js "^/" ++ ToString prefix ++ js "/uninstall/([^/]+)$")) ;;
  WEBHOOK_PATTERN <- settle (new_RegExp engine
    (js "^/" ++ ToString prefix ++ js "/webhook/([^/]+)/([^/]+)$")) ;;
  match String_match engine path INSTALL_PATTERN with
  | Some m => handleInstall request (group m 1) (group m 2) prefix secretToken
  | None =>
    match String_match engine path UNINSTALL_PATTERN with
    | Some m => handleUninstall (group m 1) secretToken
    | None =>
      match String_match engine path WEBHOOK_PATTERN with
      | Some m => handleWebhook request (group m 1) (group m 2) secretToken
      | None => ret (new_Response (js "未找到") (Some 404%nat))
      end
    end
  end.

(** The entry point of the Cloudflare deployment:
    [env.PREFIX ?? 'public'] and [env.SECRET_TOKEN ?? '']. *)
Definition onRequest_config (env : Obj) : Obj :=
  <[js "prefix" := default (js "public") (env !! js "PREFIX")]>
    (<[js "secretToken" := default [] (env !! js "SECRET_TOKEN")]> ∅).

Definition onRequest (request : Request) (env : Obj) : M Response :=
  handleRequest request (onRequest_config env).

End Handlers.

(* ------------------------------------------------------------------ *)
(** ** The variant of the handler module with Chinese identifiers *)

Section Variant.

Variable remote : Remote.
Variable engine : RegExpEngine.

(** [校验密钥(令牌)] on a string. *)
Definition 校验密钥 (令牌 : jsstr) : bool :=
  (15 <? length 令牌)%nat
  && test_range 65 90 令牌
  && test_range 97 122 令牌
  && test_range 48 57 令牌.

(** A call of [校验密钥]: reading [.length] of [undefined] throws. *)
Definition 校验密钥_call (令牌 : strU) : M bool :=
  match 令牌 with
  | Some t => ret (校验密钥 t)
  | None => throw (undefined_read "length")
  end.

Definition JSON响应 (数据 : JsVal) (状态码 : option nat) : Response :=
  mkResponse (default 200%nat 状态码) (Json 数据).

Definition 发送到TelegramAPI (机器人令牌 : strU) (方法 : jsstr) (请求体 : JsVal)
  : M ApiResponse :=
  fun tr =>
    let call := mkCall (ToString 机器人令牌) 方法 请求体 in
    match remote tr call with
    | Rejected e => (Throw e, tr ++ [call])
    | Resolved r => (Normal r, tr ++ [call])
    end.

Definition 安装Webhook (请求 : Request)
    (拥有者UID 机器人令牌 前缀 密钥 : strU) : M Response :=
  合法 <- 校验密钥_call 密钥 ;;
  if negb 合法 then
    ret (JSON响应 (JObj [
      (js "success", JBool false);
      (js "message", JStr (js
        "密钥必须至少16个字符，并且包含大写字母、小写字母和数字。"))])
      (Some 400%nat))
  else
    let url := req_url 请求 in
    let 基础URL := url_protocol url ++ js "//" ++ url_hostname url in
    let webhookURL :=
      基础URL ++ js "/" ++ ToString 前缀 ++ js "/webhook/"
        ++ ToString 拥有者UID ++ js "/" ++ ToString 机器人令牌 in
    try_catch
      (响应 <- 发送到TelegramAPI 机器人令牌 (js "setWebhook") (JObj [
         (js "url", JStr webhookURL);
         (js "allowed_updates", JArr [JStr (js "message")]);
         (js "secret_token", of_strU 密钥)]) ;;
       结果 <- settle (resp_json 响应) ;;
       if res_ok 结果 then
         ret (JSON响应 (JObj [
           (js "success", JBool true);
           (js "message", JStr (js "Webhook 安装成功。"))]) None)
       else
         ret (JSON响应 (JObj [
           (js "success", JBool false);
           (js "message", JStr (js "Webhook 安装失败："
                                  ++ ToString (res_description 结果)))])
           (Some 400%nat)))
      (fun 错误 =>
         ret (JSON响应 (JObj [
           (js "success", JBool false);
           (js "message", JStr (js "安装 webhook 出错："
                                  ++ err_message 错误))])
           (Some 500%nat))).

Definition 卸载Webhook (机器人令牌 密钥 : strU) : M Response :=
  合法 <- 校验密钥_call 密钥 ;;
  if negb 合法 then
    ret (JSON响应 (JObj [
      (js "success", JBool false);
      (js "message", JStr (js
        "密钥必须至少16个字符，并且包含大写字母、小写字母和数字。"))])
      (Some 400%nat))
  else
    try_catch
      (响应 <- 发送到TelegramAPI 机器人令牌 (js "deleteWebhook") (JObj []) ;;
       结果 <- settle (resp_json 响应) ;;
       if res_ok 结果 then
         ret (JSON响应 (JObj [
           (js "success", JBool true);
           (js "message", JStr (js "Webhook 卸载成功。"))]) None)
       else
         ret (JSON响应 (JObj [
           (js "success", JBool false);
           (js "message", JStr (js "Webhook 卸载失败："
                                  ++ ToString (res_description 结果)))])
           (Some 400%nat)))
      (fun 错误 =>
         ret (JSON响应 (JObj [
           (js "success", JBool false);
           (js "message", JStr (js "卸载 webhook 出错："
                                  ++ err_message 错误))])
           (Some 500%nat))).

(** The marker read back in the reply branch of [处理Webhook]. *)
Definition 读取发送者UID (行 : list InlineKeyboardButton) : M strU :=
  match 行 with
  | [] => throw (undefined_read "callback_data")
  | 按钮 :: _ =>
    let 发送者UID := btn_callback_data 按钮 in
    if negb (truthy 发送者UID) then
      match btn_url 按钮 with
      | None => throw (undefined_read "split")
      | Some u => ret (split u (js "tg://user?id=") !! 1%nat)
      end
    else ret 发送者UID
  end.

(** The body of the reply branch of [处理Webhook], before its [return]. *)
Definition 转发回复 (机器人令牌 : strU) (消息 : Message)
    (回复消息 : RepliedMessage) : M unit :=
  match reply_markup 回复消息 with
  | Some 回复标记 =>
    match inline_keyboard 回复标记 with
    | Some (行 :: _) =>
      发送者UID <- 读取发送者UID 行 ;;
      发送到TelegramAPI 机器人令牌 (js "copyMessage") (JObj [
        (js "chat_id", JNum (parseInt (ToString 发送者UID)));
        (js "from_chat_id", JNum (Int (chat_id (msg_chat 消息))));
        (js "message_id", JNum (Int (message_id 消息)))]) ;;;
      ret tt
    | _ => ret tt
    end
  | None => ret tt
  end.

(** The value of [发送者名称]. *)
Definition 发送者名称Of (发送者 : Chat) : jsstr :=
  if truthy (chat_username 发送者) then
    js "@" ++ ToString (chat_username 发送者)
  else
    join (js " ")
      (ToString <$> filter (fun v => truthy v = true)
                      [chat_first_name 发送者; chat_last_name 发送者]).

(** The inner function [复制消息(withUrl)]. *)
Definition 复制消息 (拥有者UID 机器人令牌 : strU) (消息 : Message)
    (发送者名称 发送者UID : jsstr) (withUrl : bool) : M ApiResponse :=
  let 按钮 :=
    if withUrl then
      [(js "text", JStr (js "🔓 来自: " ++ 发送者名称 ++ js " ("
                           ++ 发送者UID ++ js ")"));
       (js "callback_data", JStr 发送者UID);
       (js "url", JStr (js "tg://user?id=" ++ 发送者UID))]
    else
      [(js "text", JStr (js "🔏 来自: " ++ 发送者名称 ++ js " ("
                           ++ 发送者UID ++ js ")"));
       (js "callback_data", JStr 发送者UID)] in
  let 按钮组 := JArr [JArr [JObj 按钮]] in
  发送到TelegramAPI 机器人令牌 (js "copyMessage") (JObj [
    (js "chat_id", JNum (parseInt (ToString 拥有者UID)));
    (js "from_chat_id", JNum (Int (chat_id (msg_chat 消息))));
    (js "message_id", JNum (Int (message_id 消息)));
    (js "reply_markup", JObj [(js "inline_keyboard", 按钮组)])]).

(** The fresh-inbound branch of [处理Webhook]. *)
Definition 转发消息 (拥有者UID 机器人令牌 : strU) (消息 : Message) : M unit :=
  let 发送者 := msg_chat 消息 in
  let 发送者UID := Number_toString (chat_id 发送者) in
  let 发送者名称 := 发送者名称Of 发送者 in
  响应 <- 复制消息 拥有者UID 机器人令牌 消息 发送者名称 发送者UID true ;;
  if negb (resp_ok 响应) then
    复制消息 拥有者UID 机器人令牌 消息 发送者名称 发送者UID false ;;;
    ret tt
  else ret tt.

(** The condition of the reply branch:
    [回复消息 && 消息.chat.id.toString() === 拥有者UID]. *)
Definition 拥有者回复 (拥有者UID : strU) (消息 : Message)
  : option RepliedMessage :=
  match reply_to_message 消息 with
  | Some 回复消息 =>
    if strict_equal 拥有者UID
         (Some (Number_toString (chat_id (msg_chat 消息))))
    then Some 回复消息 else None
  | None => None
  end.

(** The block under [try] in [处理Webhook]. *)
Definition 处理Webhook_try (拥有者UID 机器人令牌 : strU) (消息 : Message)
  : M Response :=
  match 拥有者回复 拥有者UID 消息 with
  | Some 回复消息 =>
    转发回复 机器人令牌 消息 回复消息 ;;;
    ret (new_Response (js "OK") None)
  | None =>
    if bool_decide (msg_text 消息 = Some (js "/start")) then
      ret (new_Response (js "OK") None)
    else
      转发消息 拥有者UID 机器人令牌 消息 ;;;
      ret (new_Response (js "OK") None)
  end.

Definition 处理Webhook (请求 : Request)
    (拥有者UID 机器人令牌 密钥 : strU) : M Response :=
  if negb (strict_equal 密钥 (req_secret_header 请求)) then
    ret (new_Response (js "未授权") (Some 401%nat))
  else
    更新 <- settle (req_json 请求) ;;
    消息 <- settle (upd_message 更新) ;;
    match 消息 with
    | None => ret (new_Response (js "OK") None)
    | Some 消息 =>
      try_catch (处理Webhook_try 拥有者UID 机器人令牌 消息)
        (fun 错误 => ret (new_Response (js "内部服务器错误") (Some 500%nat)))
    end.

Definition 处理请求 (请求 : Request) (配置 : Obj) : M Response :=
  let 前缀 := 配置 !! js "前缀" in
  let 密钥 := 配置 !! js "密钥" in
  let 路径 := url_pathname (req_url 请求) in
  安装正则 <- settle (new_RegExp engine
    (js "^/" ++ ToString 前缀 ++ js "/install/([^/]+)/([^/]+)$")) ;;
  卸载正则 <- settle (new_RegExp engine
    (js "^/" ++ ToString 前缀 ++ js "/uninstall/([^/]+)$")) ;;
  webhook正则 <- settle (new_RegExp engine
    (js "^/" ++ ToString 前缀 ++ js "/webhook/([^/]+)/([^/]+)$")) ;;
  match String_match engine 路径 安装正则 with
  | Some 匹配结果 =>
    安装Webhook 请求 (group 匹配结果 1) (group 匹配结果 2) 前缀 密钥
  | None =>
    match String_match engine 路径 卸载正则 with
    | Some 匹配结果 => 卸载Webhook (group 匹配结果 1) 密钥
    | None =>
      match String_match engine 路径 webhook正则 with
      | Some 匹配结果 =>
        处理Webhook 请求 (group 匹配结果 1) (group 匹配结果 2) 密钥
      | None => ret (new_Response (js "未找到") (Some 404%nat))
      end
    end
  end.

End Variant.

(* ------------------------------------------------------------------ *)
(** ** A regular-expression engine for plain prefixes *)

(** The fragment in which the three route patterns lie when the prefix
    has no metacharacter: [^], literal characters, the group [([^/]+)]
    and [$].  A source outside the fragment is refused, so the engine
    stands for the host's only at such prefixes. *)
Inductive Tok :=
| TLit (c : N)
| TGroup.

Definition is_meta (c : N) : bool :=
  existsb (N.eqb c) [92; 94; 36; 46; 124; 63; 42; 43; 40; 41; 91; 93; 123; 125].

(** The tokens of a source after its [^], up to its final [$]. *)
Fixpoint tokens (src : jsstr) : option (list Tok) :=
  match src with
  | [] => None
  | [36] => Some []
  | 40 :: 91 :: 94 :: 47 :: 93 :: 43 :: 41 :: r => cons TGroup <$> tokens r
  | c :: r => if is_meta c then None else cons (TLit c) <$> tokens r
  end.

Definition compile (src : jsstr) : JsError + list Tok :=
  match src with
  | 94 :: r =>
    match tokens r with
    | Some ts => inr ts
    | None => inl (mkError SyntaxError (js "Invalid regular expression"))
    end
  | _ => inl (mkError SyntaxError (js "Invalid regular expression"))
  end.

(** Anchored matching; a group takes the longest run of characters
    other than [/] that lets the rest match.  The result lists the
    groups. *)
Fixpoint match_tokens (ts : list Tok) (s : jsstr) : option (list jsstr) :=
  match ts with
  | [] => match s with [] => Some [] | _ => None end
  | TLit c :: ts' =>
    match s with
    | d :: s' => if c =? d then match_tokens ts' s' else None
    | [] => None
    end
  | TGroup :: ts' =>
    (fix run_group (acc s : jsstr) {struct s} : option (list jsstr) :=
       let stop :=
         match acc with
         | [] => None
         | _ => cons acc <$> match_tokens ts' s
         end in
       match s with
       | c :: s' =>
         if c =? 47 then stop
         else match run_group (acc ++ [c]) s' with
              | Some r => Some r
              | None => stop
              end
       | [] => stop
       end) [] s
  end.

Definition fragmentEngine : RegExpEngine :=
  mkEngine (list Tok) compile
    (fun subject re =>
       (fun gs => Some subject :: (Some <$> gs)) <$> match_tokens re subject).

(* ------------------------------------------------------------------ *)
(** ** Sample data *)

(** A remote side that accepts every call, one that refuses every call
    with [ok:false], and one whose transport fails. *)
Definition remote_ok : Remote :=
  fun _ _ => Resolved (mkApiResponse true (inr (mkResult true None))).

Definition remote_refusing : Remote :=
  fun _ _ =>
    Resolved (mkApiResponse false
      (inr (mkResult false (Some (js "Bad Request"))))).

Definition remote_down : Remote :=
  fun _ _ => Rejected (mkError NetworkError (js "fetch failed")).

Definition sample_secret : jsstr := js "Abcdefghijklmno1".

Definition sample_url (path : string) : URL :=
  mkURL (js "https:") (js "bot.example.org") [] (js path) (js "?x=1").

(** A third party, chat 42, writes to the bot. *)
Definition sample_sender : Chat := mkChat 42 (Some (js "bob")) None None.

Definition sample_inbound : Message :=
  mkMessage 7 sample_sender (Some (js "hello")) None.

Definition sample_start : Message :=
  mkMessage 8 sample_sender (Some (js "/start")) None.

(** The owner, chat 1000, replies to a forwarded copy. *)
Definition sample_owner : Chat := mkChat 1000 None (Some (js "Ann")) None.

Definition owner_reply_to (markup : option ReplyMarkup) : Message :=
  mkMessage 9 sample_owner (Some (js "answer")) (Some (mkReplied markup)).

Definition markup_of (b : InlineKeyboardButton) : option ReplyMarkup :=
  Some (mkMarkup (Some [[b]])).

Definition delivery (header : option jsstr) (m : Message) : Request :=
  mkRequest (sample_url "/public/webhook/1000/TOKEN") header
    (inr (mkUpdate (Some m))).

(** The configuration as [onRequest] builds it, and the same values
    under the property names that [处理请求] reads. *)
Definition sample_config : Obj :=
  <[js "prefix" := js "public"]> (<[js "secretToken" := sample_secret]> ∅).

Definition sample_config_zh : Obj :=
  <[js "前缀" := js "public"]> (<[js "密钥" := sample_secret]> ∅).

Definition uninstall_request : Request :=
  mkRequest (sample_url "/public/uninstall/TOKEN") None
    (inl (mkError SyntaxError (js "Unexpected end of JSON input"))).

(* ------------------------------------------------------------------ *)
(** ** Reading a recorded call *)

(** The first inline element that a call attaches:
    [body.reply_markup.inline_keyboard[0][0]]. *)
Definition attached_button (c : ApiCall) : option JsVal :=
  rm ← prop (api_body c) (js "reply_markup");
  ik ← prop rm (js "inline_keyboard");
  match ik with
  | JArr (JArr (b :: _) :: _) => Some b
  | _ => None
  end.

Definition button_field (c : ApiCall) (k : string) : option JsVal :=
  b ← attached_button c; prop b (js k).

(** An occurrence of [sep] somewhere in [s]. *)
Fixpoint occurs (sep s : jsstr) : bool :=
  is_prefix sep s
  || match s with
     | [] => false
     | _ :: r => occurs sep r
     end.

(** The relay marker as the specification words it: the callback token
    of the element when it has a non-empty one; otherwise what follows
    [tg://user?id=] in its URL, [tg://user?id=] being found there once,
    with [pre] in front of it. *)
Definition marker_encodes (b : InlineKeyboardButton) (uid : jsstr) : Prop :=
  (btn_callback_data b = Some uid /\ uid <> [])
  \/ (truthy (btn_callback_data b) = false
      /\ exists pre,
           btn_url b = Some (pre ++ js "tg://user?id=" ++ uid)
           /\ occurs (js "tg://user?id=")
                (pre ++ removelast (js "tg://user?id=")) = false
           /\ occurs (js "tg://user?id=") uid = false).

(** Two completions that a caller comparing status codes cannot tell
    apart. *)
Definition same_status (a b : Completion Response) : Prop :=
  match a, b with
  | Normal x, Normal y => status x = status y
  | Throw e, Throw e' => e = e'
  | _, _ => False
  end.

(** Two runs with completions of the same status and the same trace. *)
Definition agree (a b : Completion Response * Trace) : Prop :=
  same_status (fst a) (fst b) /\ snd a = snd b.

(* ------------------------------------------------------------------ *)
(** ** Reading a run *)

(** The status with which [handleInstall] and [handleUninstall] answer
    the outcome of their one remote call: 200 when the decoded body
    says [ok], 400 when it does not, 500 when the call is rejected or
    its body does not decode. *)
Definition admin_status (o : Outcome) : nat :=
  match o with
  | Rejected _ => 500
  | Resolved r =>
    match resp_json r with
    | inl _ => 500
    | inr res => if res_ok res then 200 else 400
    end
  end.

(** A run from [tr] that issued the calls [new], in this order. *)
Definition issued {A} (r : Completion A * Trace) (tr new : Trace) : Prop :=
  snd r = tr ++ new.

(** A relay to [target] of the message [message]. *)
Definition relays (message : Message) (target : JsNum) (c : ApiCall) : Prop :=
  api_method c = js "copyMessage"
  /\ prop (api_body c) (js "chat_id") = Some (JNum target)
  /\ prop (api_body c) (js "from_chat_id")
     = Some (JNum (Int (chat_id (msg_chat message))))
  /\ prop (api_body c) (js "message_id")
     = Some (JNum (Int (message_id message))).

(** A remote side whose transport is down: every call is rejected. *)
Definition transport_down (remote : Remote) : Prop :=
  forall tr c, exists e, remote tr c = Rejected e.

(** A weak secret, and a delivery whose body does not decode. *)
Definition weak_secret : jsstr := js "abcdefghijklmnop".

Definition undecodable_delivery (header : option jsstr) : Request :=
  mkRequest (sample_url "/public/webhook/1000/TOKEN") header
    (inl (mkError SyntaxError (js "Unexpected end of JSON input"))).


(** The owner answers [/start] to a message forwarded from chat 42. *)
Definition owner_start_reply : Message :=
  mkMessage 9 sample_owner (Some (js "/start"))
    (Some (mkReplied (markup_of (mkButton (Some (js "42")) None)))).

(** The response of an installation or removal: a JSON object with
    [success] and [message], [success] being true exactly at status
    200. *)
Definition admin_shaped (c : Completion Response) : Prop :=
  exists (st : nat) (msg : jsstr),
    c = Normal (mkResponse st (Json (JObj [
          (js "success", JBool (Nat.eqb st 200));
          (js "message", JStr msg)]))).

(** A remote side that answers with a body that does not decode. *)
Definition remote_garbled : Remote :=
  fun _ _ =>
    Resolved (mkApiResponse true
      (inl (mkError SyntaxError (js "Unexpected token < in JSON")))).

(** The first relay of [sample_inbound] to the owner, chat 1000. *)
Definition sample_forward : ApiCall :=
  mkCall (js "TOKEN") (js "copyMessage") (JObj [
    (js "chat_id", JNum (Int 1000));
    (js "from_chat_id", JNum (Int 42));
    (js "message_id", JNum (Int 7));
    (js "reply_markup", JObj [(js "inline_keyboard", JArr [JArr [JObj [
       (js "text", JStr (js "🔓 来自: @bob (42)"));
       (js "callback_data", JStr (js "42"));
       (js "url", JStr (js "tg://user?id=42"))]]])])]).

(** The same message with another text. *)
Definition with_text (message : Message) (text : strU) : Message :=
  mkMessage (message_id message) (msg_chat message) text
    (reply_to_message message).

(** The integers that a number of the source holds exactly, and on
    which its [toString] and [parseInt] are those of this file. *)
Definition safe_integer (z : Z) : Prop :=
  (- 9007199254740992 < z < 9007199254740992)%Z.

(** The replied-to message comes back with the inline element [b] that
    echoes the one attached by the call [c]: its callback token, or,
    with no callback token, its link. *)
Definition echoes (c : ApiCall) (b : InlineKeyboardButton) : Prop :=
  (exists x, button_field c "callback_data" = Some (JStr x)
             /\ btn_callback_data b = Some x)
  \/ (truthy (btn_callback_data b) = false
      /\ exists u, button_field c "url" = Some (JStr u)
                   /\ btn_url b = Some u).

(** Two bodies of the same shape: plain text both, or objects
    [{success, message}] with the same property names and the same
    [success]; the texts are left free. *)
Definition same_shape (x y : Body) : Prop :=
  match x, y with
  | Text _, Text _ => True
  | Json (JObj [(k1, JBool b1); (k2, JStr _)]),
    Json (JObj [(k1', JBool b2); (k2', JStr _)]) =>
    k1 = k1' /\ k2 = k2' /\ b1 = b2
  | _, _ => False
  end.

(** Two runs with the same trace that complete alike: with the same
    error, or with responses of the same status and shape. *)
Definition agree_in_shape (a b : Completion Response * Trace) : Prop :=
  snd a = snd b
  /\ match fst a, fst b with
     | Normal x, Normal y =>
       status x = status y /\ same_shape (body x) (body y)
     | Throw e, Throw e' => e = e'
     | _, _ => False
     end.

(* ------------------------------------------------------------------ *)
(** * Properties *)

Arguments js : simpl never.

(** ** Sample runs of the primitives *)

Example validateSecretToken_mixed :
  validateSecretToken (js "Abcdefghijklmno1") = true.
Proof. reflexivity. Qed.

Example validateSecretToken_lower_only :
  validateSecretToken (js "abcdefghijklmnop") = false.
Proof. reflexivity. Qed.

Example validateSecretToken_short :
  validateSecretToken (js "Short1A") = false.
Proof. reflexivity. Qed.

Example js_unlocked_glyph : js "🔓" = [55357; 56595].
Proof. reflexivity. Qed.

Example parseInt_555 : parseInt (js "555") = Int 555.
Proof. reflexivity. Qed.

Example parseInt_undefined : parseInt (ToString None) = NaN.
Proof. reflexivity. Qed.

Example split_marker_555 :
  split (js "tg://user?id=555") (js "tg://user?id=") = [[]; js "555"].
Proof. reflexivity. Qed.

Lemma test_range_spec lo hi s :
  test_range lo hi s = true <-> exists c, In c s /\ lo <= c <= hi.
Proof.
  unfold test_range. rewrite existsb_exists. split.
  - intros (c & Hin & Hc). exists c. split; [assumption|].
    apply andb_true_iff in Hc as [H1 H2].
    apply N.leb_le in H1. apply N.leb_le in H2. lia.
  - intros (c & Hin & Hc). exists c. split; [assumption|].
    apply andb_true_iff. split; apply N.leb_le; lia.
Qed.

(** C7. For every string, [validateSecretToken] answers true exactly
    when the string has more than 15 code units and holds an uppercase
    ASCII letter (65..90), a lowercase ASCII letter (97..122) and a
    decimal digit (48..57).  It is a function of the string alone, and
    a call of it on a string completes normally and leaves the trace of
    remote calls as it was. *)
Theorem validateSecretToken_iff (token : jsstr) :
  (validateSecretToken token = true <->
   (15 < length token)%nat
   /\ (exists c, In c token /\ 65 <= c <= 90)
   /\ (exists c, In c token /\ 97 <= c <= 122)
   /\ (exists c, In c token /\ 48 <= c <= 57))
  /\ (forall tr : Trace,
        validateSecretToken_call (Some token) tr
        = (Normal (validateSecretToken token), tr)).
Proof.
  split; [|reflexivity].
  unfold validateSecretToken.
  rewrite !andb_true_iff, Nat.ltb_lt, !test_range_spec. tauto.
Qed.

(* ------------------------------------------------------------------ *)
(** ** The steps of a computation *)

Lemma strict_equal_true (a : strU) (b : option jsstr) :
  strict_equal a b = true <-> exists s, a = Some s /\ b = Some s.
Proof.
  unfold strict_equal, str_eqb. destruct a as [x|], b as [y|]; split.
  - intros H. apply bool_decide_eq_true in H. subst. eauto.
  - intros (s & [= ->] & [= ->]). now apply bool_decide_eq_true.
  - discriminate.
  - intros (s & _ & [=]).
  - discriminate.
  - intros (s & [=] & _).
  - discriminate.
  - intros (s & [=] & _).
Qed.

Lemma strict_equal_same (s : jsstr) : strict_equal (Some s) (Some s) = true.
Proof. apply strict_equal_true. eauto. Qed.

Lemma strict_equal_mismatch (secret : jsstr) (h : option jsstr) :
  h <> Some secret -> strict_equal (Some secret) h = false.
Proof.
  intros Hne. destruct (strict_equal (Some secret) h) eqn:E; [|reflexivity].
  apply strict_equal_true in E as (s & [= <-] & ->). congruence.
Qed.

(** A remote call extends the trace by exactly the call, whatever its
    outcome. *)
Lemma postToTelegramApi_trace remote token method body tr :
  snd (postToTelegramApi remote token method body tr)
  = tr ++ [mkCall (ToString token) method body].
Proof. unfold postToTelegramApi. now destruct (remote tr _). Qed.


(** Past the gate the handler answers 200 or 500, or the decoding of
    the body throws. *)
Lemma handleWebhook_accepted_status remote request ownerUid botToken tr :
  let st :=
    status_of (handleWebhook_accepted remote request ownerUid botToken tr) in
  st = None \/ st = Some 200%nat \/ st = Some 500%nat.
Proof.
  unfold handleWebhook_accepted, bind, settle, status_of.
  destruct (req_json request) as [e|update]; simpl; [auto|].
  destruct (upd_message update) as [e|[message|]]; simpl; [auto| |auto].
  unfold try_catch.
  destruct (handleWebhook_try _ _ _ _ _) as [[resp|e] tr'] eqn:E; simpl;
    [|auto].
  unfold handleWebhook_try, bind, ret in E.
  destruct (ownerReply _ _).
  - destruct (relayReply _ _ _ _ _) as [[[]|] ?]; simplify_eq; auto.
  - destruct (bool_decide _); [simplify_eq; auto|].
    destruct (relayInbound _ _ _ _ _) as [[[]|] ?]; simplify_eq; auto.
Qed.

Lemma handleWebhook_accepted_not_401 remote request ownerUid botToken tr :
  status_of (handleWebhook_accepted remote request ownerUid botToken tr)
  <> Some 401%nat.
Proof.
  pose proof (handleWebhook_accepted_status remote request ownerUid botToken tr)
    as H.
  simpl in H. intros E. rewrite E in H. destruct H as [H|[H|H]]; discriminate.
Qed.

(* ------------------------------------------------------------------ *)
(** ** Authentication of a delivery *)

Lemma handleWebhook_gate_closed remote request ownerUid botToken
    (secret : jsstr) (tr : Trace) :
  req_secret_header request <> Some secret ->
  handleWebhook remote request ownerUid botToken (Some secret) tr
  = (Normal (new_Response (js "未授权") (Some 401%nat)), tr).
Proof. intros H. unfold handleWebhook. now rewrite strict_equal_mismatch. Qed.

Lemma handleWebhook_gate_open remote request ownerUid botToken
    (secret : jsstr) (tr : Trace) :
  req_secret_header request = Some secret ->
  handleWebhook remote request ownerUid botToken (Some secret) tr
  = handleWebhook_accepted remote request ownerUid botToken tr.
Proof. intros H. unfold handleWebhook. now rewrite H, strict_equal_same. Qed.

(** C4. A delivery whose header differs from the configured secret in
    any way (another string, be it in case only, the empty string,
    or no header at all) is answered 401 and no remote call is issued:
    the trace is left as it was.  A delivery whose header is the
    configured secret goes on with the body, and whatever follows is
    never answered 401. *)
Theorem handleWebhook_auth_exact remote request ownerUid botToken
    (secret : jsstr) (tr : Trace) :
  (req_secret_header request <> Some secret ->
     handleWebhook remote request ownerUid botToken (Some secret) tr
     = (Normal (new_Response (js "未授权") (Some 401%nat)), tr))
  /\ (req_secret_header request = Some secret ->
     handleWebhook remote request ownerUid botToken (Some secret) tr
     = handleWebhook_accepted remote request ownerUid botToken tr
     /\ status_of (handleWebhook remote request ownerUid botToken
                     (Some secret) tr) <> Some 401%nat).
Proof.
  split; intros H.
  - now apply handleWebhook_gate_closed.
  - rewrite (handleWebhook_gate_open _ _ _ _ _ _ H). split; [reflexivity|].
    apply handleWebhook_accepted_not_401.
Qed.

(** The secret differs from the header in the case of one letter. *)
Lemma handleWebhook_auth_exact_witness :
  run (handleWebhook remote_ok
         (delivery (Some (js "abcdefghijklmno1")) sample_inbound)
         (Some (js "1000")) (Some (js "TOKEN")) (Some sample_secret))
  = (Normal (new_Response (js "未授权") (Some 401%nat)), []).
Proof.
  apply (proj1 (handleWebhook_auth_exact remote_ok
                  (delivery (Some (js "abcdefghijklmno1")) sample_inbound)
                  (Some (js "1000")) (Some (js "TOKEN")) sample_secret [])).
  vm_compute. discriminate.
Defined.

Example handleWebhook_empty_header_refused :
  run (handleWebhook remote_ok (delivery (Some []) sample_inbound)
         (Some (js "1000")) (Some (js "TOKEN")) (Some sample_secret))
  = (Normal (new_Response (js "未授权") (Some 401%nat)), []).
Proof. reflexivity. Qed.

Example handleWebhook_absent_header_refused :
  run (handleWebhook remote_ok (delivery None sample_inbound)
         (Some (js "1000")) (Some (js "TOKEN")) (Some sample_secret))
  = (Normal (new_Response (js "未授权") (Some 401%nat)), []).
Proof. reflexivity. Qed.

Example handleWebhook_equal_header_accepted :
  status_of (run (handleWebhook remote_ok
                    (delivery (Some sample_secret) sample_inbound)
                    (Some (js "1000")) (Some (js "TOKEN")) (Some sample_secret)))
  = Some 200%nat.
Proof. reflexivity. Qed.

Lemma onRequest_config_secret (env : Obj) :
  onRequest_config env !! js "secretToken"
  = Some (default [] (env !! js "SECRET_TOKEN")).
Proof.
  unfold onRequest_config.
  rewrite lookup_insert_ne by (vm_compute; discriminate).
  apply lookup_insert_eq.
Qed.


(** C5. With no [SECRET_TOKEN] in the environment the configured
    secret is the empty string, and a delivery that carries the header
    with an empty value (a request anyone can build, knowing no secret)
    passes the gate and is processed: it is not answered 401, and when
    it holds a message that is no reply and not [/start], that message
    is relayed: a [copyMessage] of it is issued under the credential,
    and the answer is 200 when the call is accepted. *)
Theorem empty_default_secret_opens_gate (remote : Remote) (env : Obj)
    (request : Request) (ownerUid botToken : strU) (message : Message)
    (tr : Trace) :
  env !! js "SECRET_TOKEN" = None ->
  req_secret_header request = Some [] ->
  req_json request = inr (mkUpdate (Some message)) ->
  reply_to_message message = None ->
  msg_text message <> Some (js "/start") ->
  let r := handleWebhook remote request ownerUid botToken
             (onRequest_config env !! js "secretToken") tr in
  status_of r <> Some 401%nat
  /\ exists c rest,
       calls r = tr ++ c :: rest
       /\ api_method c = js "copyMessage"
       /\ api_token c = ToString botToken
       /\ prop (api_body c) (js "from_chat_id")
          = Some (JNum (Int (chat_id (msg_chat message))))
       /\ prop (api_body c) (js "message_id")
          = Some (JNum (Int (message_id message)))
       /\ (forall resp, remote tr c = Resolved resp -> resp_ok resp = true ->
             r = (Normal (mkResponse 200 (Text (js "成功"))), tr ++ [c])).
Proof.
  intros Henv Hh Hjson Hreply Htext r. unfold r.
  rewrite onRequest_config_secret, Henv. cbn [default].
  rewrite (handleWebhook_gate_open _ _ _ _ _ _ Hh).
  split; [apply handleWebhook_accepted_not_401|].
  remember (handleWebhook_accepted remote request ownerUid botToken tr)
    as res eqn:Hres.
  unfold handleWebhook_accepted in Hres.
  rewrite Hjson in Hres. unfold bind at 1 in Hres. cbn [settle ret] in Hres.
  unfold bind at 1 in Hres. cbn [settle ret upd_message] in Hres.
  unfold handleWebhook_try, ownerReply in Hres. rewrite Hreply in Hres.
  rewrite bool_decide_eq_false_2 in Hres by exact Htext.
  unfold try_catch, relayInbound, copyMessage, postToTelegramApi, bind
    in Hres.
  cbv beta zeta in Hres.
  match type of Hres with context [remote tr ?c] => set (c1 := c) in * end.
  exists c1. unfold calls.
  destruct (remote tr c1) as [e|r1] eqn:Hr1.
  - subst res. exists []. cbn [snd]. repeat split. intros resp [=].
  - destruct (resp_ok r1) eqn:Hok; cbn [negb] in Hres.
    + subst res. exists []. cbn [snd]. repeat split.
    + match type of Hres with
      | context [remote (tr ++ [c1]) ?c] => set (c2 := c) in *
      end.
      exists [c2].
      destruct (remote (tr ++ [c1]) c2); subst res; cbn [snd];
        rewrite <- List.app_assoc; repeat split;
        intros resp Hresp Hok'; simplify_eq; congruence.
Qed.

(** The message of a stranger, sent with an empty header. *)
Lemma empty_default_secret_opens_gate_witness :
  exists c rest,
    calls (handleWebhook remote_ok (delivery (Some []) sample_inbound)
             (Some (js "1000")) (Some (js "TOKEN"))
             (onRequest_config ∅ !! js "secretToken") [])
    = [] ++ c :: rest
    /\ api_method c = js "copyMessage".
Proof.
  destruct (empty_default_secret_opens_gate remote_ok (∅ : Obj)
              (delivery (Some []) sample_inbound)
              (Some (js "1000")) (Some (js "TOKEN")) sample_inbound [])
    as (_ & c & rest & Hcalls & Hmethod & _);
    [reflexivity | reflexivity | reflexivity | reflexivity
    | vm_compute; discriminate | ].
  exists c, rest. split; assumption.
Defined.

(** The same through the entry point and the router: the message of a
    stranger is relayed to chat 1000 on behalf of a caller who knew no
    secret. *)
Example onRequest_default_secret_relays :
  let r := run (onRequest remote_ok fragmentEngine
                  (delivery (Some []) sample_inbound) ∅) in
  status_of r = Some 200%nat
  /\ api_method <$> calls r = [js "copyMessage"]
  /\ (fun c => prop (api_body c) (js "chat_id")) <$> calls r
     = [Some (JNum (Int 1000))].
Proof. vm_compute. repeat split. Qed.

(** A request without the header is still refused when the secret is
    empty: [null] is not the empty string. *)
Example onRequest_default_secret_absent_header :
  run (onRequest remote_ok fragmentEngine (delivery None sample_inbound) ∅)
  = (Normal (new_Response (js "未授权") (Some 401%nat)), []).
Proof. reflexivity. Qed.

(* ------------------------------------------------------------------ *)
(** ** Command suppression *)

Lemma ownerReply_None (ownerUid : strU) (message : Message) :
  reply_to_message message = None
  \/ ownerUid <> Some (Number_toString (chat_id (msg_chat message))) ->
  ownerReply ownerUid message = None.
Proof.
  unfold ownerReply. intros [->|Hne]; [reflexivity|].
  destruct (reply_to_message message); [|reflexivity].
  destruct (strict_equal _ _) eqn:E; [|reflexivity].
  apply strict_equal_true in E as (s & -> & [= <-]). congruence.
Qed.

(** C9. An authenticated delivery that is not a reply of the owner
    (the message is no reply, or its chat id as a decimal string is not
    the owner's) and whose text is exactly [/start] is answered 200
    with no remote call, whoever the sender is. *)
Theorem start_command_suppressed remote request ownerUid botToken
    secretToken (message : Message) (tr : Trace) :
  strict_equal secretToken (req_secret_header request) = true ->
  req_json request = inr (mkUpdate (Some message)) ->
  (reply_to_message message = None
   \/ ownerUid <> Some (Number_toString (chat_id (msg_chat message)))) ->
  msg_text message = Some (js "/start") ->
  handleWebhook remote request ownerUid botToken secretToken tr
  = (Normal (mkResponse 200 (Text (js "成功"))), tr).
Proof.
  intros Hauth Hjson Hreply Htext.
  unfold handleWebhook, handleWebhook_accepted, handleWebhook_try.
  rewrite Hauth, Hjson. simpl.
  unfold bind, try_catch. simpl.
  rewrite (ownerReply_None _ _ Hreply).
  rewrite bool_decide_eq_true_2 by exact Htext. reflexivity.
Qed.

Lemma start_command_suppressed_witness :
  run (handleWebhook remote_ok (delivery (Some sample_secret) sample_start)
         (Some (js "1000")) (Some (js "TOKEN")) (Some sample_secret))
  = (Normal (mkResponse 200 (Text (js "成功"))), []).
Proof.
  apply (start_command_suppressed remote_ok
           (delivery (Some sample_secret) sample_start)
           (Some (js "1000")) (Some (js "TOKEN")) (Some sample_secret)
           sample_start []).
  - reflexivity.
  - reflexivity.
  - left. reflexivity.
  - reflexivity.
Defined.

(* ------------------------------------------------------------------ *)
(** ** Installation *)

(** C8. An install request whose secret passes validation issues
    exactly one remote call, [setWebhook], and the [url] it registers
    is the protocol of the request URL, [//], its host name, and then
    [/<prefix>/webhook/<ownerUid>/<credential>] with the three strings
    spliced in as they are: nothing of the query of the request and no
    encoding of the credential. *)
Theorem handleInstall_callback_url remote request
    (ownerUid botToken prefix secret : jsstr) (tr : Trace) :
  validateSecretToken secret = true ->
  calls (handleInstall remote request (Some ownerUid) (Some botToken)
           (Some prefix) (Some secret) tr)
  = tr ++ [mkCall botToken (js "setWebhook") (JObj [
      (js "url", JStr (url_protocol (req_url request) ++ js "//"
                       ++ url_hostname (req_url request)
                       ++ js "/" ++ prefix ++ js "/webhook/"
                       ++ ownerUid ++ js "/" ++ botToken));
      (js "allowed_updates", JArr [JStr (js "message")]);
      (js "secret_token", JStr secret)])].
Proof.
  intros Hvalid.
  unfold handleInstall, validateSecretToken_call, calls, bind, ret, try_catch.
  rewrite Hvalid. simpl.
  unfold postToTelegramApi. simpl. rewrite <- !List.app_assoc.
  destruct (remote tr _) as [e|r]; simpl; [reflexivity|].
  unfold settle. destruct (resp_json r) as [e|result]; simpl; [reflexivity|].
  destruct (res_ok result); reflexivity.
Qed.

Lemma handleInstall_callback_url_witness :
  calls (handleInstall remote_ok (mkRequest (sample_url "/public/install/1000/TOKEN")
                                     None (inl (mkError SyntaxError [])))
           (Some (js "1000")) (Some (js "TOKEN")) (Some (js "public"))
           (Some sample_secret) [])
  = [mkCall (js "TOKEN") (js "setWebhook") (JObj [
      (js "url", JStr (js "https://bot.example.org/public/webhook/1000/TOKEN"));
      (js "allowed_updates", JArr [JStr (js "message")]);
      (js "secret_token", JStr sample_secret)])].
Proof.
  apply (handleInstall_callback_url remote_ok
           (mkRequest (sample_url "/public/install/1000/TOKEN")
              None (inl (mkError SyntaxError [])))
           (js "1000") (js "TOKEN") (js "public") sample_secret []).
  reflexivity.
Defined.

(* ------------------------------------------------------------------ *)
(** ** The fresh-inbound branch *)

(** C2. In the fresh-inbound branch (an authenticated delivery with a
    message that is neither a reply of the owner nor [/start]) the
    first call [c1] is a [copyMessage] whose element carries the
    deep link and a label that opens with the unlocked glyph.  When its
    response is [ok], it is the only call and the answer is 200.  When
    its response is not [ok], exactly one more call [c2] follows,
    whatever becomes of it: a [copyMessage] whose element has no [url],
    the same callback token, and the same label but for the glyph, now
    the locked one; its response, [ok] or not, is not looked at and the
    answer is 200. *)
Theorem fresh_inbound_fallback remote request ownerUid botToken secretToken
    (message : Message) (tr : Trace) :
  strict_equal secretToken (req_secret_header request) = true ->
  req_json request = inr (mkUpdate (Some message)) ->
  (reply_to_message message = None
   \/ ownerUid <> Some (Number_toString (chat_id (msg_chat message)))) ->
  msg_text message <> Some (js "/start") ->
  let uid := Number_toString (chat_id (msg_chat message)) in
  let result := handleWebhook remote request ownerUid botToken secretToken tr in
  exists (c1 c2 : ApiCall) (label : jsstr),
    (api_method c1 = js "copyMessage"
     /\ button_field c1 "url" = Some (JStr (js "tg://user?id=" ++ uid))
     /\ button_field c1 "callback_data" = Some (JStr uid)
     /\ button_field c1 "text" = Some (JStr (js "🔓" ++ label)))
    /\ (api_method c2 = js "copyMessage"
        /\ button_field c2 "url" = None
        /\ button_field c2 "callback_data" = Some (JStr uid)
        /\ button_field c2 "text" = Some (JStr (js "🔏" ++ label)))
    /\ (forall r1, remote tr c1 = Resolved r1 -> resp_ok r1 = true ->
          result = (Normal (mkResponse 200 (Text (js "成功"))), tr ++ [c1]))
    /\ (forall r1, remote tr c1 = Resolved r1 -> resp_ok r1 = false ->
          calls result = tr ++ [c1; c2]
          /\ forall r2, remote (tr ++ [c1]) c2 = Resolved r2 ->
               result = (Normal (mkResponse 200 (Text (js "成功"))),
                         tr ++ [c1; c2])).
Proof.
  intros Hauth Hjson Hreply Htext uid result.
  set (name := senderNameOf (msg_chat message)).
  set (rest := js " 来自: " ++ name ++ js " (" ++ uid ++ js ")").
  eexists _, _, rest.
  assert (Hres : result
    = try_catch (relayInbound remote ownerUid botToken message ;;;
                 ret (new_Response (js "成功") None))
        (fun _ => ret (new_Response (js "内部服务器错误") (Some 500%nat))) tr).
  { unfold result, handleWebhook, handleWebhook_accepted, handleWebhook_try.
    rewrite Hauth, Hjson. simpl. unfold bind at 1. simpl.
    unfold bind at 1. simpl.
    rewrite (ownerReply_None _ _ Hreply).
    rewrite bool_decide_eq_false_2 by exact Htext. reflexivity. }
  unfold relayInbound, copyMessage, postToTelegramApi in Hres.
  fold uid name in Hres.
  split; [|split; [|split]].
  3: { intros r1 Hr1 Hok. rewrite Hres.
       unfold try_catch, bind. rewrite Hr1. simpl. rewrite Hok. reflexivity. }
  3: { intros r1 Hr1 Hok. rewrite Hres.
       unfold try_catch, bind, calls. rewrite Hr1. simpl. rewrite Hok. simpl.
       split.
       - destruct (remote (tr ++ _) _); simpl; rewrite <- List.app_assoc;
           reflexivity.
       - intros r2 Hr2. rewrite Hr2. simpl. rewrite <- List.app_assoc.
         reflexivity. }
  - repeat split.
  - repeat split.
Qed.

(* ------------------------------------------------------------------ *)
(** ** Cutting a string at a separator *)

Lemma is_prefix_app (p s : jsstr) : is_prefix p (p ++ s) = true.
Proof.
  induction p as [|a p IH]; simpl; [reflexivity|].
  now rewrite N.eqb_refl, IH.
Qed.

(** Only the first [length p] code units of the subject matter. *)
Lemma is_prefix_long (p x y : jsstr) :
  (length p <= length x)%nat -> is_prefix p (x ++ y) = is_prefix p x.
Proof.
  revert x. induction p as [|a p IH]; intros x Hlen; [now destruct x|].
  destruct x as [|b x]; simpl in *; [lia|].
  rewrite IH by lia. reflexivity.
Qed.

Lemma split_go_skip (sep l acc rest : jsstr) :
  split_go sep (length l) acc (l ++ rest) = split_go sep 0 acc rest.
Proof. induction l as [|c l IH]; simpl; [reflexivity|exact IH]. Qed.

Lemma split_go_at (sep acc rest : jsstr) :
  sep <> [] ->
  split_go sep 0 acc (sep ++ rest) = acc :: split_go sep 0 [] rest.
Proof.
  destruct sep as [|c sep]; [congruence|]. intros _.
  change ((c :: sep) ++ rest) with (c :: (sep ++ rest)).
  cbn [split_go].
  change (c :: sep ++ rest) with ((c :: sep) ++ rest).
  rewrite is_prefix_app. cbn [length Nat.pred].
  now rewrite split_go_skip.
Qed.

Lemma split_go_no_occurrence (sep acc s : jsstr) :
  occurs sep s = false -> split_go sep 0 acc s = [acc ++ s].
Proof.
  revert acc. induction s as [|c s IH]; intros acc H.
  - simpl. now rewrite List.app_nil_r.
  - cbn [occurs] in H. apply orb_false_iff in H as [H1 H2].
    cbn [split_go]. rewrite H1, IH by exact H2.
    now rewrite <- List.app_assoc.
Qed.

Lemma removelast_snoc (sep : jsstr) :
  sep <> [] -> exists c, sep = removelast sep ++ [c].
Proof.
  intros H. exists (List.last sep 0). now apply app_removelast_last.
Qed.

Lemma length_removelast_nonempty (sep : jsstr) :
  sep <> [] -> S (length (removelast sep)) = length sep.
Proof.
  intros H. destruct (removelast_snoc sep H) as [c Hc].
  rewrite Hc at 2. rewrite length_app. simpl. lia.
Qed.

Lemma split_go_before (sep pre acc rest : jsstr) :
  sep <> [] ->
  occurs sep (pre ++ removelast sep) = false ->
  split_go sep 0 acc (pre ++ sep ++ rest)
  = (acc ++ pre) :: split_go sep 0 [] rest.
Proof.
  intros Hsep. revert acc. induction pre as [|c pre IH]; intros acc H.
  - simpl. rewrite List.app_nil_r. now apply split_go_at.
  - change ((c :: pre) ++ removelast sep) with (c :: (pre ++ removelast sep)) in H.
    cbn [occurs] in H. apply orb_false_iff in H as [H1 H2].
    change ((c :: pre) ++ sep ++ rest) with (c :: (pre ++ sep ++ rest)).
    cbn [split_go].
    assert (Hp : is_prefix sep (c :: pre ++ sep ++ rest) = false).
    { destruct (removelast_snoc sep Hsep) as [d Hd].
      rewrite Hd at 2. rewrite <- (List.app_assoc (removelast sep)).
      rewrite (List.app_assoc pre).
      change (c :: (pre ++ removelast sep) ++ [d] ++ rest)
        with ((c :: pre ++ removelast sep) ++ [d] ++ rest).
      rewrite is_prefix_long; [exact H1|].
      pose proof (length_removelast_nonempty sep Hsep).
      simpl. rewrite length_app. lia. }
    rewrite Hp, IH by exact H2. now rewrite <- List.app_assoc.
Qed.

(** Cut at a separator found once, the second piece is what follows
    it. *)
Lemma split_once (sep pre rest : jsstr) :
  sep <> [] ->
  occurs sep (pre ++ removelast sep) = false ->
  occurs sep rest = false ->
  split (pre ++ sep ++ rest) sep = [pre; rest].
Proof.
  intros Hsep Hpre Hrest. unfold split.
  rewrite split_go_before by assumption.
  now rewrite split_go_no_occurrence.
Qed.

(* ------------------------------------------------------------------ *)
(** ** The reply-from-owner branch *)

Lemma ownerReply_Some (message : Message) (reply : RepliedMessage) :
  reply_to_message message = Some reply ->
  ownerReply (Some (Number_toString (chat_id (msg_chat message)))) message
  = Some reply.
Proof. intros H. unfold ownerReply. now rewrite H, strict_equal_same. Qed.

Lemma readSenderUid_marker (b : InlineKeyboardButton)
    (row : list InlineKeyboardButton) (uid : jsstr) (tr : Trace) :
  marker_encodes b uid ->
  readSenderUid (b :: row) tr = (Normal (Some uid), tr).
Proof.
  unfold readSenderUid. cbv zeta.
  intros [[Hcb Hne]|(Hcb & pre & Hurl & Hpre & Huid)].
  - rewrite Hcb. destruct uid; [congruence|reflexivity].
  - rewrite Hcb, Hurl. cbn [negb].
    rewrite split_once by (assumption || discriminate). reflexivity.
Qed.

(** C1. For an authenticated delivery whose message is a reply, in the
    chat whose id as a decimal string is [ownerUid], to a message
    whose inline markup has a first element [b]: when [b] encodes
    [uid] (its callback token when it has a non-empty one, and what
    follows [tg://user?id=] in its URL otherwise), the handler issues
    exactly one remote call, a [copyMessage] to [chat_id =
    parseInt(uid)] from the chat of the message, with no
    [reply_markup]; when that call gets a response the answer is 200.
    With [uid = "555"] the call has [chat_id = 555]. *)
Theorem owner_reply_relays_to_marker remote request botToken secretToken
    (message : Message) (reply : RepliedMessage) (rm : ReplyMarkup)
    (b : InlineKeyboardButton) (row : list InlineKeyboardButton)
    (rows : list (list InlineKeyboardButton)) (uid : jsstr) (tr : Trace) :
  strict_equal secretToken (req_secret_header request) = true ->
  req_json request = inr (mkUpdate (Some message)) ->
  reply_to_message message = Some reply ->
  reply_markup reply = Some rm ->
  inline_keyboard rm = Some ((b :: row) :: rows) ->
  marker_encodes b uid ->
  let ownerUid := Some (Number_toString (chat_id (msg_chat message))) in
  let result := handleWebhook remote request ownerUid botToken secretToken tr in
  let call := mkCall (ToString botToken) (js "copyMessage") (JObj [
      (js "chat_id", JNum (parseInt uid));
      (js "from_chat_id", JNum (Int (chat_id (msg_chat message))));
      (js "message_id", JNum (Int (message_id message)))]) in
  calls result = tr ++ [call]
  /\ prop (api_body call) (js "reply_markup") = None
  /\ (forall r, remote tr call = Resolved r ->
        result = (Normal (mkResponse 200 (Text (js "成功"))), tr ++ [call]))
  /\ (uid = js "555" ->
        prop (api_body call) (js "chat_id") = Some (JNum (Int 555))).
Proof.
  intros Hauth Hjson Hreply Hrm Hik Hmark ownerUid result call.
  assert (Hres : result
    = match remote tr call with
      | Resolved _ =>
        (Normal (mkResponse 200 (Text (js "成功"))), tr ++ [call])
      | Rejected _ =>
        (Normal (mkResponse 500 (Text (js "内部服务器错误"))), tr ++ [call])
      end).
  { unfold result, handleWebhook, handleWebhook_accepted, handleWebhook_try.
    rewrite Hauth, Hjson. simpl. unfold bind at 1. simpl.
    unfold bind at 1. simpl.
    unfold ownerUid. rewrite (ownerReply_Some _ _ Hreply).
    unfold relayReply. rewrite Hrm, Hik.
    unfold try_catch, bind.
    rewrite (readSenderUid_marker _ _ _ _ Hmark).
    unfold postToTelegramApi. cbn [ToString]. fold call.
    now destruct (remote tr call). }
  split; [|split; [|split]].
  - rewrite Hres. unfold calls. now destruct (remote tr call).
  - reflexivity.
  - intros r Hr. now rewrite Hres, Hr.
  - intros ->. reflexivity.
Qed.

(** The marker is the callback token ["555"]. *)
Lemma owner_reply_relays_to_marker_witness :
  calls (run (handleWebhook remote_ok
                (delivery (Some sample_secret)
                   (owner_reply_to (markup_of (mkButton (Some (js "555")) None))))
                (Some (js "1000")) (Some (js "TOKEN")) (Some sample_secret)))
  = [mkCall (js "TOKEN") (js "copyMessage") (JObj [
       (js "chat_id", JNum (Int 555));
       (js "from_chat_id", JNum (Int 1000));
       (js "message_id", JNum (Int 9))])].
Proof.
  exact (proj1 (owner_reply_relays_to_marker remote_ok
    (delivery (Some sample_secret)
       (owner_reply_to (markup_of (mkButton (Some (js "555")) None))))
    (Some (js "TOKEN")) (Some sample_secret)
    (owner_reply_to (markup_of (mkButton (Some (js "555")) None)))
    (mkReplied (markup_of (mkButton (Some (js "555")) None)))
    (mkMarkup (Some [[mkButton (Some (js "555")) None]]))
    (mkButton (Some (js "555")) None) [] [] (js "555") []
    eq_refl eq_refl eq_refl eq_refl eq_refl
    (or_introl (conj eq_refl (fun E => eq_ind (js "555")
       (fun l => match l with [] => False | _ => True end) I [] E))))).
Defined.

(** The marker is in the URL alone, or in the URL under an empty
    callback token. *)
Example owner_reply_marker_in_url :
  run (handleWebhook remote_ok
         (delivery (Some sample_secret)
            (owner_reply_to
               (markup_of (mkButton None (Some (js "tg://user?id=555"))))))
         (Some (js "1000")) (Some (js "TOKEN")) (Some sample_secret))
  = (Normal (mkResponse 200 (Text (js "成功"))),
     [mkCall (js "TOKEN") (js "copyMessage") (JObj [
        (js "chat_id", JNum (Int 555));
        (js "from_chat_id", JNum (Int 1000));
        (js "message_id", JNum (Int 9))])]).
Proof. reflexivity. Qed.

Example owner_reply_empty_callback_token :
  calls (run (handleWebhook remote_ok
         (delivery (Some sample_secret)
            (owner_reply_to
               (markup_of (mkButton (Some []) (Some (js "tg://user?id=555"))))))
         (Some (js "1000")) (Some (js "TOKEN")) (Some sample_secret)))
  = [mkCall (js "TOKEN") (js "copyMessage") (JObj [
        (js "chat_id", JNum (Int 555));
        (js "from_chat_id", JNum (Int 1000));
        (js "message_id", JNum (Int 9))])].
Proof. reflexivity. Qed.

(** The callback token wins over the URL. *)
Example owner_reply_callback_token_first :
  (fun c => prop (api_body c) (js "chat_id")) <$>
    calls (run (handleWebhook remote_ok
      (delivery (Some sample_secret)
         (owner_reply_to
            (markup_of (mkButton (Some (js "12345"))
                          (Some (js "tg://user?id=67890"))))))
      (Some (js "1000")) (Some (js "TOKEN")) (Some sample_secret)))
  = [Some (JNum (Int 12345))].
Proof. reflexivity. Qed.

(** The first relay is refused: the fallback follows, once. *)
Lemma fresh_inbound_fallback_witness :
  exists c1 c2 : ApiCall,
    calls (run (handleWebhook remote_refusing
                  (delivery (Some sample_secret) sample_inbound)
                  (Some (js "1000")) (Some (js "TOKEN")) (Some sample_secret)))
    = [c1; c2]
    /\ button_field c1 "url" = Some (JStr (js "tg://user?id=42"))
    /\ button_field c2 "url" = None.
Proof.
  destruct (fresh_inbound_fallback remote_refusing
              (delivery (Some sample_secret) sample_inbound)
              (Some (js "1000")) (Some (js "TOKEN")) (Some sample_secret)
              sample_inbound [] eq_refl eq_refl (or_introl eq_refl)
              ltac:(vm_compute; discriminate))
    as (c1 & c2 & label & (_ & Hu1 & _) & (_ & Hu2 & _) & _ & Hfail).
  exists c1, c2. split; [|split; assumption].
  exact (proj1 (Hfail _ eq_refl eq_refl)).
Defined.

Example fresh_inbound_refused_twice :
  let r := run (handleWebhook remote_refusing
                  (delivery (Some sample_secret) sample_inbound)
                  (Some (js "1000")) (Some (js "TOKEN")) (Some sample_secret)) in
  status_of r = Some 200%nat
  /\ (fun c => button_field c "url") <$> calls r
     = [Some (JStr (js "tg://user?id=42")); None]
  /\ (fun c => button_field c "text") <$> calls r
     = [Some (JStr (js "🔓 来自: @bob (42)"));
        Some (JStr (js "🔏 来自: @bob (42)"))].
Proof. vm_compute. repeat split. Qed.

Example fresh_inbound_accepted_once :
  let r := run (handleWebhook remote_ok
                  (delivery (Some sample_secret) sample_inbound)
                  (Some (js "1000")) (Some (js "TOKEN")) (Some sample_secret)) in
  status_of r = Some 200%nat /\ length (calls r) = 1%nat.
Proof. vm_compute. repeat split. Qed.

(* ------------------------------------------------------------------ *)
(** ** A reply with nothing to relay *)

(** C6, as stated, fails: the owner replies to a message whose first
    inline element has neither a callback token nor a URL; no relay
    call is made, but the answer is 500, not 200. *)
Lemma reply_without_marker_not_200 :
  let r := run (handleWebhook remote_ok
                  (delivery (Some sample_secret)
                     (owner_reply_to (markup_of (mkButton None None))))
                  (Some (js "1000")) (Some (js "TOKEN")) (Some sample_secret)) in
  ~ (calls r = [] /\ status_of r = Some 200%nat).
Proof. vm_compute. intros [_ H]. discriminate H. Qed.

Example reply_without_marker_is_500 :
  run (handleWebhook remote_ok
         (delivery (Some sample_secret)
            (owner_reply_to (markup_of (mkButton None None))))
         (Some (js "1000")) (Some (js "TOKEN")) (Some sample_secret))
  = (Normal (mkResponse 500 (Text (js "内部服务器错误"))), []).
Proof. reflexivity. Qed.

(** C6, amended. For an authenticated reply of the owner:
    - when the first inline element of the replied-to message has no
      callback token (none, or an empty one) and no [url] field,
      reading the marker throws, no relay call is made and the answer
      is the generic 500;
    - when the replied-to message has no inline markup at all (no
      [reply_markup], no [inline_keyboard] in it, or an empty one), no
      relay call is made and the answer is 200. *)
Theorem reply_without_marker remote request botToken secretToken
    (message : Message) (reply : RepliedMessage) (tr : Trace) :
  strict_equal secretToken (req_secret_header request) = true ->
  req_json request = inr (mkUpdate (Some message)) ->
  reply_to_message message = Some reply ->
  let ownerUid := Some (Number_toString (chat_id (msg_chat message))) in
  let result := handleWebhook remote request ownerUid botToken secretToken tr in
  (forall rm b row rows,
     reply_markup reply = Some rm ->
     inline_keyboard rm = Some ((b :: row) :: rows) ->
     truthy (btn_callback_data b) = false ->
     btn_url b = None ->
     result = (Normal (mkResponse 500 (Text (js "内部服务器错误"))), tr))
  /\ ((reply_markup reply = None
       \/ exists rm, reply_markup reply = Some rm
            /\ (inline_keyboard rm = None \/ inline_keyboard rm = Some [])) ->
      result = (Normal (mkResponse 200 (Text (js "成功"))), tr)).
Proof.
  intros Hauth Hjson Hreply ownerUid result.
  assert (Hres : result
    = try_catch (relayReply remote botToken message reply ;;;
                 ret (new_Response (js "成功") None))
        (fun _ => ret (new_Response (js "内部服务器错误") (Some 500%nat))) tr).
  { unfold result, handleWebhook, handleWebhook_accepted, handleWebhook_try.
    rewrite Hauth, Hjson. simpl. unfold bind at 1. simpl.
    unfold bind at 1. simpl.
    unfold ownerUid. now rewrite (ownerReply_Some _ _ Hreply). }
  rewrite Hres. unfold relayReply. split.
  - intros rm b row rows Hrm Hik Hcb Hurl. rewrite Hrm, Hik.
    unfold try_catch, bind, readSenderUid. cbv zeta.
    now rewrite Hcb, Hurl.
  - intros [Hrm|(rm & Hrm & [Hik|Hik])]; rewrite Hrm; try rewrite Hik;
      reflexivity.
Qed.

Lemma reply_without_marker_witness :
  run (handleWebhook remote_ok
         (delivery (Some sample_secret)
            (owner_reply_to (markup_of (mkButton (Some []) None))))
         (Some (js "1000")) (Some (js "TOKEN")) (Some sample_secret))
  = (Normal (mkResponse 500 (Text (js "内部服务器错误"))), [])
  /\ run (handleWebhook remote_ok
            (delivery (Some sample_secret) (owner_reply_to None))
            (Some (js "1000")) (Some (js "TOKEN")) (Some sample_secret))
     = (Normal (mkResponse 200 (Text (js "成功"))), []).
Proof.
  split.
  - exact (proj1 (reply_without_marker remote_ok
      (delivery (Some sample_secret)
         (owner_reply_to (markup_of (mkButton (Some []) None))))
      (Some (js "TOKEN")) (Some sample_secret)
      (owner_reply_to (markup_of (mkButton (Some []) None)))
      (mkReplied (markup_of (mkButton (Some []) None))) []
      eq_refl eq_refl eq_refl)
      (mkMarkup (Some [[mkButton (Some []) None]]))
      (mkButton (Some []) None) [] [] eq_refl eq_refl eq_refl eq_refl).
  - exact (proj2 (reply_without_marker remote_ok
      (delivery (Some sample_secret) (owner_reply_to None))
      (Some (js "TOKEN")) (Some sample_secret)
      (owner_reply_to None) (mkReplied None) []
      eq_refl eq_refl eq_refl) (or_introl eq_refl)).
Defined.

(** A URL that does not hold [tg://user?id=] leaves the marker
    [undefined]: the relay call is made all the same, with
    [chat_id = NaN]. *)
Lemma reply_with_foreign_url remote request botToken secretToken
    (message : Message) (reply : RepliedMessage) (rm : ReplyMarkup)
    (b : InlineKeyboardButton) (row : list InlineKeyboardButton)
    (rows : list (list InlineKeyboardButton)) (u : jsstr) (tr : Trace) :
  strict_equal secretToken (req_secret_header request) = true ->
  req_json request = inr (mkUpdate (Some message)) ->
  reply_to_message message = Some reply ->
  reply_markup reply = Some rm ->
  inline_keyboard rm = Some ((b :: row) :: rows) ->
  truthy (btn_callback_data b) = false ->
  btn_url b = Some u ->
  occurs (js "tg://user?id=") u = false ->
  calls (handleWebhook remote request
           (Some (Number_toString (chat_id (msg_chat message))))
           botToken secretToken tr)
  = tr ++ [mkCall (ToString botToken) (js "copyMessage") (JObj [
      (js "chat_id", JNum NaN);
      (js "from_chat_id", JNum (Int (chat_id (msg_chat message))));
      (js "message_id", JNum (Int (message_id message)))])].
Proof.
  intros Hauth Hjson Hreply Hrm Hik Hcb Hurl Hocc.
  unfold handleWebhook, handleWebhook_accepted, handleWebhook_try.
  rewrite Hauth, Hjson. simpl. unfold bind at 1. simpl.
    unfold bind at 1. simpl.
  rewrite (ownerReply_Some _ _ Hreply).
  unfold relayReply. rewrite Hrm, Hik.
  unfold try_catch, bind, readSenderUid. cbv zeta. rewrite Hcb, Hurl.
  cbn [negb]. unfold split. rewrite split_go_no_occurrence by exact Hocc.
  unfold postToTelegramApi, calls. cbn [lookup list_lookup ret].
  now destruct (remote tr _).
Qed.

(* ------------------------------------------------------------------ *)
(** ** Errors of a delivery *)

(** C3, as stated, fails: the body of an authenticated delivery does
    not decode; the error leaves [handleWebhook] as it is, and no
    response, 500 or other, is produced. *)
Lemma body_decoding_error_escapes :
  let r := run (handleWebhook remote_ok
                  (mkRequest (sample_url "/public/webhook/1000/TOKEN")
                     (Some sample_secret)
                     (inl (mkError SyntaxError (js "Unexpected end of JSON input"))))
                  (Some (js "1000")) (Some (js "TOKEN")) (Some sample_secret)) in
  ~ (exists resp, fst r = Normal resp /\ status resp = 500%nat).
Proof. vm_compute. intros (resp & H & _). discriminate H. Qed.

(** C3, amended. For an authenticated delivery whose body decodes to
    an update with a message, so that steps 3 to 5 run: the handler
    always completes with a response, and whenever the block of these
    steps throws, whatever the error, the response is the same 500
    with the same fixed text.  An error of the decoding of the body
    (step 2) is not caught: it is thrown on to the caller. *)
Theorem delivery_errors_caught remote request ownerUid botToken secretToken
    (tr : Trace) :
  strict_equal secretToken (req_secret_header request) = true ->
  let result := handleWebhook remote request ownerUid botToken secretToken tr in
  (forall message,
     req_json request = inr (mkUpdate (Some message)) ->
     (exists resp tr', result = (Normal resp, tr'))
     /\ forall e tr',
          handleWebhook_try remote ownerUid botToken message tr = (Throw e, tr') ->
          result = (Normal (mkResponse 500 (Text (js "内部服务器错误"))), tr'))
  /\ (forall e, req_json request = inl e -> result = (Throw e, tr)).
Proof.
  intros Hauth result. unfold result, handleWebhook, handleWebhook_accepted.
  rewrite Hauth. cbn [negb]. split.
  - intros message Hjson. rewrite Hjson.
    unfold bind, settle, ret, try_catch. cbn [upd_message]. split.
    + destruct (handleWebhook_try _ _ _ _ _) as [[resp|e] tr']; eauto.
    + intros e tr' Hthrow. now rewrite Hthrow.
  - intros e Hjson. now rewrite Hjson.
Qed.

(** The transport fails in the fresh-inbound branch. *)
Lemma delivery_errors_caught_witness :
  run (handleWebhook remote_down
         (delivery (Some sample_secret) sample_inbound)
         (Some (js "1000")) (Some (js "TOKEN")) (Some sample_secret))
  = (Normal (mkResponse 500 (Text (js "内部服务器错误"))),
     snd (run (handleWebhook_try remote_down (Some (js "1000"))
                 (Some (js "TOKEN")) sample_inbound))).
Proof.
  apply (proj2 (proj1 (delivery_errors_caught remote_down
                  (delivery (Some sample_secret) sample_inbound)
                  (Some (js "1000")) (Some (js "TOKEN")) (Some sample_secret)
                  [] eq_refl) sample_inbound eq_refl)
           (mkError NetworkError (js "fetch failed"))).
  reflexivity.
Defined.

(** The first row of the markup is empty. *)
Example delivery_empty_row_is_500 :
  run (handleWebhook remote_ok
         (delivery (Some sample_secret)
            (owner_reply_to (Some (mkMarkup (Some [[]])))))
         (Some (js "1000")) (Some (js "TOKEN")) (Some sample_secret))
  = (Normal (mkResponse 500 (Text (js "内部服务器错误"))), []).
Proof. reflexivity. Qed.

(* ------------------------------------------------------------------ *)
(** ** The marker comes back as it went *)

Lemma digit_val_decimal (k : N) :
  k < 10 -> digit_val 10 (48 + k) = Some k.
Proof.
  intros Hk. unfold digit_val.
  assert (H1 : (48 <=? 48 + k) = true) by (apply N.leb_le; lia).
  assert (H2 : (48 + k <=? 57) = true) by (apply N.leb_le; lia).
  assert (H3 : (48 + k - 48 <? 10) = true) by (apply N.ltb_lt; lia).
  rewrite H1, H2. cbn [andb]. rewrite H3. f_equal. lia.
Qed.

Lemma parse_digits_acc (d : Decimal.uint) (a : positive) :
  parse_digits 10 (Some (N.pos a)) (uint_units d)
  = Some (N.pos (Pos.of_uint_acc d a)).
Proof.
  revert a. induction d; intros a; cbn [uint_units parse_digits Pos.of_uint_acc];
    [reflexivity|..].
  all: match goal with
       | |- context [digit_val 10 ?c] =>
         change c with (48 + (c - 48));
         rewrite digit_val_decimal by (vm_compute; reflexivity)
       end.
  all: cbn [default id]; rewrite <- IHd; do 2 f_equal; lia.
Qed.

Lemma parse_digits_zero (d : Decimal.uint) :
  parse_digits 10 (Some 0) (uint_units d) = Some (Pos.of_uint d).
Proof.
  induction d; cbn [uint_units parse_digits Pos.of_uint]; [reflexivity|..].
  all: match goal with
       | |- context [digit_val 10 ?c] =>
         change c with (48 + (c - 48));
         rewrite digit_val_decimal by (vm_compute; reflexivity)
       end.
  all: cbn [default id]; try exact IHd.
  all: rewrite <- parse_digits_acc; reflexivity.
Qed.

Lemma parse_digits_start (d : Decimal.uint) :
  d <> Decimal.Nil ->
  parse_digits 10 None (uint_units d) = Some (Pos.of_uint d).
Proof.
  intros Hd. rewrite <- parse_digits_zero.
  destruct d; [congruence|reflexivity..].
Qed.

(** A decimal numeral is read by [parseInt] as it stands: it opens
    with a digit, and no [x] follows a leading [0]. *)
Lemma parseInt_numeral (d : Decimal.uint) :
  d <> Decimal.Nil ->
  parseInt (uint_units d) = Int (Z.of_N (Pos.of_uint d)).
Proof.
  intros Hd. pose proof (parse_digits_start d Hd) as H.
  unfold parseInt.
  destruct d as [|d|d|d|d|d|d|d|d|d|d]; [congruence|..];
    cbn [uint_units] in *;
    (destruct d; cbn [uint_units] in *; cbn -[parse_digits Z.of_N];
     rewrite H; reflexivity).
Qed.

Lemma parseInt_negative_numeral (d : Decimal.uint) :
  d <> Decimal.Nil ->
  parseInt (45 :: uint_units d) = Int (- Z.of_N (Pos.of_uint d)).
Proof.
  intros Hd. pose proof (parse_digits_start d Hd) as H.
  unfold parseInt.
  destruct d as [|d|d|d|d|d|d|d|d|d|d]; [congruence|..];
    cbn [uint_units] in *;
    (destruct d; cbn [uint_units] in *; cbn -[parse_digits Z.of_N];
     rewrite H; reflexivity).
Qed.

(** The decimal string of an integer is parsed back to it (in the exact
    arithmetic of this file: of the source, for a safe integer). *)
Lemma parseInt_Number_toString (z : Z) :
  parseInt (Number_toString z) = Int z.
Proof.
  unfold Number_toString. destruct z as [|p|p]; cbn [Z.to_int].
  - reflexivity.
  - rewrite parseInt_numeral by apply DecimalPos.Unsigned.to_uint_nonnil.
    now rewrite DecimalPos.Unsigned.of_to.
  - rewrite parseInt_negative_numeral
      by apply DecimalPos.Unsigned.to_uint_nonnil.
    now rewrite DecimalPos.Unsigned.of_to.
Qed.

Lemma Number_toString_nonempty (z : Z) : Number_toString z <> [].
Proof.
  unfold Number_toString. destruct z as [|p|p]; cbn [Z.to_int];
    [discriminate| |discriminate].
  pose proof (DecimalPos.Unsigned.to_uint_nonnil p) as H.
  destruct (Pos.to_uint p); [congruence|discriminate..].
Qed.

(* ------------------------------------------------------------------ *)
(** ** The two variants of the module *)

(** C10, as stated, fails: given the configuration object that
    [onRequest] builds, with the properties [prefix] and [secretToken],
    [handleRequest] routes an uninstall request and calls
    [deleteWebhook], while [处理请求], which reads the properties [前缀]
    and [密钥], finds neither, matches the path against
    [/undefined/...] and answers 404 with no call. *)
Lemma variants_differ_on_shared_config :
  let a := run (handleRequest remote_ok fragmentEngine
                  uninstall_request sample_config) in
  let b := run (处理请求 remote_ok fragmentEngine
                  uninstall_request sample_config) in
  ~ (status_of a = status_of b /\ calls a = calls b).
Proof. vm_compute. intros [H _]. discriminate H. Qed.

Example handleRequest_uninstall :
  let a := run (handleRequest remote_ok fragmentEngine
                  uninstall_request sample_config) in
  status_of a = Some 200%nat
  /\ calls a = [mkCall (js "TOKEN") (js "deleteWebhook") (JObj [])].
Proof. vm_compute. split; reflexivity. Qed.

Example 处理请求_uninstall_shared_config :
  run (处理请求 remote_ok fragmentEngine uninstall_request sample_config)
  = (Normal (new_Response (js "未找到") (Some 404%nat)), []).
Proof. vm_compute. reflexivity. Qed.

Ltac alike := split; simpl; reflexivity.

(** Case analysis on the next regular expression built, and on the next
    match tried. *)
Ltac next_RegExp :=
  match goal with
  | |- context [new_RegExp ?g ?src] =>
    let re := fresh "re" in
    destruct (new_RegExp g src) as [?|re]; [alike|]
  end.

Ltac next_match k :=
  match goal with
  | |- context [String_match ?g ?p ?re] =>
    destruct (String_match g p re) as [?|]; [apply k|]
  end.

Lemma 安装Webhook_agree remote request o b p s tr :
  agree (handleInstall remote request o b p s tr)
        (安装Webhook remote request o b p s tr).
Proof.
  unfold agree, handleInstall, 安装Webhook, validateSecretToken_call,
    校验密钥_call, bind, throw, ret, try_catch.
  destruct s as [s|]; [|alike].
  change (校验密钥 s) with (validateSecretToken s).
  destruct (validateSecretToken s); cbn [negb]; [|alike].
  unfold postToTelegramApi, 发送到TelegramAPI.
  destruct (remote tr _) as [e|r]; [alike|].
  unfold settle, throw, ret.
  destruct (resp_json r) as [e|res]; [alike|].
  destruct (res_ok res); alike.
Qed.

Lemma 卸载Webhook_agree remote b s tr :
  agree (handleUninstall remote b s tr) (卸载Webhook remote b s tr).
Proof.
  unfold agree, handleUninstall, 卸载Webhook, validateSecretToken_call,
    校验密钥_call, bind, throw, ret, try_catch.
  destruct s as [s|]; [|alike].
  change (校验密钥 s) with (validateSecretToken s).
  destruct (validateSecretToken s); cbn [negb]; [|alike].
  unfold postToTelegramApi, 发送到TelegramAPI.
  destruct (remote tr _) as [e|r]; [alike|].
  unfold settle, throw, ret.
  destruct (resp_json r) as [e|res]; [alike|].
  destruct (res_ok res); alike.
Qed.

(** The relays of the two variants are the same computations. *)
Lemma 转发回复_eq remote b m r :
  转发回复 remote b m r = relayReply remote b m r.
Proof. reflexivity. Qed.

Lemma 转发消息_eq remote o b m :
  转发消息 remote o b m = relayInbound remote o b m.
Proof. reflexivity. Qed.

Lemma 处理Webhook_agree remote request o b s tr :
  agree (handleWebhook remote request o b s tr)
        (处理Webhook remote request o b s tr).
Proof.
  unfold agree, handleWebhook, 处理Webhook, handleWebhook_accepted.
  destruct (strict_equal s _); cbn [negb]; [|alike].
  unfold bind, settle, throw, ret.
  destruct (req_json request) as [e|update]; [alike|].
  destruct (upd_message update) as [e|[message|]]; [alike| |alike].
  unfold try_catch, handleWebhook_try, 处理Webhook_try, bind, ret.
  change (拥有者回复 o message) with (ownerReply o message).
  destruct (ownerReply o message) as [reply|].
  - change (转发回复 remote b message reply)
      with (relayReply remote b message reply).
    destruct (relayReply remote b message reply tr) as [[[]|e] tr'];
      alike.
  - destruct (bool_decide _); [alike|].
    change (转发消息 remote o b message)
      with (relayInbound remote o b message).
    destruct (relayInbound remote o b message tr) as [[[]|e] tr'];
      alike.
Qed.

(** C10, amended. For every request, remote side and regular
    expression engine, and every two configuration objects such that
    [prefix] and [secretToken] in the first are what [前缀] and [密钥]
    are in the second (be they absent in both), [handleRequest] on the
    first and [处理请求] on the second complete alike (responses of
    equal status code, or the same error thrown) and issue the same
    sequence of remote calls. *)
Theorem variants_agree (remote : Remote) (engine : RegExpEngine)
    (request : Request) (config config' : Obj) (tr : Trace) :
  config !! js "prefix" = config' !! js "前缀" ->
  config !! js "secretToken" = config' !! js "密钥" ->
  let a := handleRequest remote engine request config tr in
  let b := 处理请求 remote engine request config' tr in
  same_status (fst a) (fst b) /\ calls a = calls b.
Proof.
  intros Hp Hs a b. change (agree a b).
  unfold a, b, handleRequest, 处理请求. cbv zeta. rewrite <- Hp, <- Hs.
  unfold bind, settle, throw, ret.
  do 3 next_RegExp.
  next_match 安装Webhook_agree.
  next_match 卸载Webhook_agree.
  next_match 处理Webhook_agree.
  alike.
Qed.

Lemma variants_agree_witness :
  let a := run (handleRequest remote_ok fragmentEngine
                  uninstall_request sample_config) in
  let b := run (处理请求 remote_ok fragmentEngine
                  uninstall_request sample_config_zh) in
  same_status (fst a) (fst b) /\ calls a = calls b.
Proof.
  apply (variants_agree remote_ok fragmentEngine uninstall_request
           sample_config sample_config_zh []).
  - vm_compute. reflexivity.
  - vm_compute. reflexivity.
Defined.

(* ------------------------------------------------------------------ *)
(** ** Installing and removing the webhook *)

(** One case of the outcome of the remote call of an installation or
    removal. *)
Ltac outcome_case :=
  repeat split; try reflexivity; intros; simplify_eq;
  try reflexivity; try congruence.

(** X1. A secret that fails validation stops [handleInstall] and
    [handleUninstall] alike before any remote call: the answer is 400
    with [success: false], and the trace is left as it was. *)
Theorem weak_secret_refused remote request ownerUid botToken prefix
    (secret : jsstr) (tr : Trace) :
  validateSecretToken secret = false ->
  let i := handleInstall remote request ownerUid botToken prefix
             (Some secret) tr in
  let u := handleUninstall remote botToken (Some secret) tr in
  (status_of i = Some 400%nat /\ calls i = tr
   /\ exists msg, fst i = Normal (jsonResponse (JObj [
        (js "success", JBool false); (js "message", JStr msg)])
        (Some 400%nat)))
  /\ (status_of u = Some 400%nat /\ calls u = tr
      /\ exists msg, fst u = Normal (jsonResponse (JObj [
           (js "success", JBool false); (js "message", JStr msg)])
           (Some 400%nat))).
Proof.
  intros Hweak i u. unfold i, u, handleInstall, handleUninstall,
    validateSecretToken_call, bind, ret.
  rewrite Hweak. cbn [negb]. unfold status_of, calls. cbn [fst snd].
  repeat split; eauto.
Qed.

Lemma weak_secret_refused_witness :
  status_of (run (handleInstall remote_ok uninstall_request
                    (Some (js "1000")) (Some (js "TOKEN")) (Some (js "public"))
                    (Some weak_secret)))
  = Some 400%nat.
Proof.
  apply (weak_secret_refused remote_ok uninstall_request
           (Some (js "1000")) (Some (js "TOKEN")) (Some (js "public"))
           weak_secret []).
  reflexivity.
Defined.

(** X2. With a secret that passes validation [handleInstall] issues
    exactly one call, [setWebhook] under the credential, completes
    with a response whatever the remote side does, and its answer
    follows the outcome of the call: 200 with the success text on
    [ok]; 400 on a refusal, whose description is passed on in the
    message; 500 with the message of the error when the call is
    rejected, and likewise when its body does not decode. *)
Theorem handleInstall_outcomes remote request ownerUid botToken prefix
    (secret : jsstr) (tr : Trace) :
  validateSecretToken secret = true ->
  let r := handleInstall remote request ownerUid botToken prefix
             (Some secret) tr in
  exists call,
    calls r = tr ++ [call]
    /\ api_method call = js "setWebhook"
    /\ api_token call = ToString botToken
    /\ status_of r = Some (admin_status (remote tr call))
    /\ (forall resp res,
          remote tr call = Resolved resp -> resp_json resp = inr res ->
          res_ok res = false ->
          fst r = Normal (jsonResponse (JObj [
            (js "success", JBool false);
            (js "message", JStr (js "Webhook 安装失败："
                                   ++ ToString (res_description res)))])
            (Some 400%nat)))
    /\ (forall e,
          remote tr call = Rejected e ->
          fst r = Normal (jsonResponse (JObj [
            (js "success", JBool false);
            (js "message", JStr (js "安装 webhook 时出错："
                                   ++ err_message e))])
            (Some 500%nat)))
    /\ (forall resp e,
          remote tr call = Resolved resp -> resp_json resp = inl e ->
          fst r = Normal (jsonResponse (JObj [
            (js "success", JBool false);
            (js "message", JStr (js "安装 webhook 时出错："
                                   ++ err_message e))])
            (Some 500%nat)))
    /\ (forall resp res,
          remote tr call = Resolved resp -> resp_json resp = inr res ->
          res_ok res = true ->
          fst r = Normal (jsonResponse (JObj [
            (js "success", JBool true);
            (js "message", JStr (js "Webhook 安装成功。"))]) None)).
Proof.
  intros Hvalid r. unfold r, handleInstall, validateSecretToken_call,
    bind, ret, try_catch.
  rewrite Hvalid. cbn [negb]. unfold postToTelegramApi, calls, status_of.
  match goal with |- context [remote tr ?c] => exists c end.
  unfold admin_status, settle, throw, ret.
  destruct (remote tr _) as [e|resp]; cbn [fst snd]; [outcome_case|].
  destruct (resp_json resp) as [e|res] eqn:Hjson; cbn [fst snd];
    [outcome_case|].
  destruct (res_ok res) eqn:Hok; cbn [fst snd]; outcome_case.
Qed.

Lemma handleInstall_outcomes_witness :
  exists call,
    calls (run (handleInstall remote_refusing uninstall_request
                  (Some (js "1000")) (Some (js "TOKEN")) (Some (js "public"))
                  (Some sample_secret)))
    = [call]
    /\ api_method call = js "setWebhook".
Proof.
  destruct (handleInstall_outcomes remote_refusing uninstall_request
              (Some (js "1000")) (Some (js "TOKEN")) (Some (js "public"))
              sample_secret [] eq_refl)
    as (call & Hcalls & Hmethod & _).
  exists call. split; assumption.
Defined.

Example handleInstall_refused_description :
  run (handleInstall remote_refusing uninstall_request
         (Some (js "1000")) (Some (js "TOKEN")) (Some (js "public"))
         (Some sample_secret))
  = (Normal (mkResponse 400 (Json (JObj [
       (js "success", JBool false);
       (js "message", JStr (js "Webhook 安装失败：Bad Request"))]))),
     [mkCall (js "TOKEN") (js "setWebhook") (JObj [
        (js "url", JStr (js "https://bot.example.org/public/webhook/1000/TOKEN"));
        (js "allowed_updates", JArr [JStr (js "message")]);
        (js "secret_token", JStr sample_secret)])]).
Proof. vm_compute. reflexivity. Qed.

(** The body of the remote response does not decode. *)
Example handleInstall_garbled_body :
  fst (run (handleInstall remote_garbled uninstall_request
              (Some (js "1000")) (Some (js "TOKEN")) (Some (js "public"))
              (Some sample_secret)))
  = Normal (mkResponse 500 (Json (JObj [
      (js "success", JBool false);
      (js "message",
       JStr (js "安装 webhook 时出错：Unexpected token < in JSON"))]))).
Proof. vm_compute. reflexivity. Qed.

(** X3. With a secret that passes validation [handleUninstall]
    issues exactly one call, [deleteWebhook] under the credential with
    an empty body, completes with a response whatever the remote side
    does, and its answer follows the outcome of the call: 200 with
    the success text on [ok]; 400 on a refusal, whose description is
    passed on in the message; 500 with the message of the error when
    the call is rejected, and likewise when its body does not
    decode. *)
Theorem handleUninstall_outcomes remote botToken (secret : jsstr)
    (tr : Trace) :
  validateSecretToken secret = true ->
  let r := handleUninstall remote botToken (Some secret) tr in
  let call := mkCall (ToString botToken) (js "deleteWebhook") (JObj []) in
  calls r = tr ++ [call]
  /\ status_of r = Some (admin_status (remote tr call))
  /\ (forall resp res,
        remote tr call = Resolved resp -> resp_json resp = inr res ->
        res_ok res = false ->
        fst r = Normal (jsonResponse (JObj [
          (js "success", JBool false);
          (js "message", JStr (js "Webhook 卸载失败："
                                 ++ ToString (res_description res)))])
          (Some 400%nat)))
  /\ (forall e,
        remote tr call = Rejected e ->
        fst r = Normal (jsonResponse (JObj [
          (js "success", JBool false);
          (js "message", JStr (js "卸载 webhook 时出错："
                                 ++ err_message e))])
          (Some 500%nat)))
  /\ (forall resp e,
        remote tr call = Resolved resp -> resp_json resp = inl e ->
        fst r = Normal (jsonResponse (JObj [
          (js "success", JBool false);
          (js "message", JStr (js "卸载 webhook 时出错："
                                 ++ err_message e))])
          (Some 500%nat)))
  /\ (forall resp res,
        remote tr call = Resolved resp -> resp_json resp = inr res ->
        res_ok res = true ->
        fst r = Normal (jsonResponse (JObj [
          (js "success", JBool true);
          (js "message", JStr (js "Webhook 卸载成功。"))]) None)).
Proof.
  intros Hvalid r call. unfold r, handleUninstall, validateSecretToken_call,
    bind, ret, try_catch.
  rewrite Hvalid. cbn [negb]. unfold postToTelegramApi, calls, status_of.
  fold call. unfold admin_status, settle, throw, ret.
  destruct (remote tr call) as [e|resp]; cbn [fst snd]; [outcome_case|].
  destruct (resp_json resp) as [e|res] eqn:Hjson; cbn [fst snd];
    [outcome_case|].
  destruct (res_ok res) eqn:Hok; cbn [fst snd]; outcome_case.
Qed.

Lemma handleUninstall_outcomes_witness :
  fst (run (handleUninstall remote_down (Some (js "TOKEN"))
              (Some sample_secret)))
  = Normal (jsonResponse (JObj [
      (js "success", JBool false);
      (js "message", JStr (js "卸载 webhook 时出错："
                             ++ js "fetch failed"))])
      (Some 500%nat)).
Proof.
  exact (proj1 (proj2 (proj2 (proj2
    (handleUninstall_outcomes remote_down (Some (js "TOKEN"))
       sample_secret [] eq_refl))))
    (mkError NetworkError (js "fetch failed")) eq_refl).
Defined.

(* ------------------------------------------------------------------ *)
(** ** The calls of a delivery *)

Lemma readSenderUid_trace (row : list InlineKeyboardButton) (tr : Trace) :
  snd (readSenderUid row tr) = tr.
Proof.
  unfold readSenderUid. destruct row as [|b row]; [reflexivity|].
  cbv zeta. destruct (truthy (btn_callback_data b)); [reflexivity|].
  cbn [negb]. now destruct (btn_url b).
Qed.

(** A run that issued nothing, and the shape of a goal on the calls
    issued. *)
Ltac no_calls :=
  exists (@nil ApiCall); cbn [snd length]; rewrite List.app_nil_r;
  split; [reflexivity | split; [lia | constructor]].

Ltac these_calls :=
  cbn [snd length]; rewrite <- ?List.app_assoc;
  split; [reflexivity | split; [lia | repeat constructor; eauto]].

(** The reply branch issues at most one call, a relay of the message
    with no markup attached. *)
Lemma relayReply_calls remote botToken (message : Message)
    (reply : RepliedMessage) (tr : Trace) :
  exists new,
    issued (relayReply remote botToken message reply tr) tr new
    /\ (length new <= 1)%nat
    /\ Forall (fun c => (exists target, relays message target c)
                        /\ api_token c = ToString botToken
                        /\ prop (api_body c) (js "reply_markup") = None) new.
Proof.
  unfold issued, relayReply.
  destruct (reply_markup reply) as [rm|]; [|no_calls].
  destruct (inline_keyboard rm) as [[|row rows]|]; [no_calls| |no_calls].
  unfold bind.
  pose proof (readSenderUid_trace row tr) as Htr.
  destruct (readSenderUid row tr) as [[v|e] tr']; cbn [snd] in Htr; subst tr';
    [|no_calls].
  unfold postToTelegramApi.
  match goal with |- context [remote tr ?c] => exists [c] end.
  destruct (remote tr _); these_calls.
  all: eexists; repeat split; reflexivity.
Qed.

(** The fresh-inbound branch issues one call or two, each a relay of
    the message to [parseInt(ownerUid)] with an inline element. *)
Lemma relayInbound_calls remote ownerUid botToken (message : Message)
    (tr : Trace) :
  exists new,
    issued (relayInbound remote ownerUid botToken message tr) tr new
    /\ (1 <= length new <= 2)%nat
    /\ Forall (fun c => relays message (parseInt (ToString ownerUid)) c
                        /\ api_token c = ToString botToken
                        /\ is_Some (attached_button c)) new.
Proof.
  unfold issued, relayInbound, copyMessage, bind, postToTelegramApi.
  cbv zeta.
  match goal with |- context [remote tr ?c] => set (c1 := c) end.
  destruct (remote tr c1) as [e|r1]; [exists [c1]; these_calls|].
  destruct (resp_ok r1); cbn [negb]; [exists [c1]; these_calls|].
  match goal with |- context [remote (tr ++ [c1]) ?c] => set (c2 := c) end.
  exists [c1; c2].
  destruct (remote (tr ++ [c1]) c2); these_calls.
Qed.

Lemma handleWebhook_try_trace remote ownerUid botToken (message : Message)
    (tr : Trace) :
  snd (handleWebhook_try remote ownerUid botToken message tr)
  = match ownerReply ownerUid message with
    | Some reply => snd (relayReply remote botToken message reply tr)
    | None =>
      if bool_decide (msg_text message = Some (js "/start")) then tr
      else snd (relayInbound remote ownerUid botToken message tr)
    end.
Proof.
  unfold handleWebhook_try, bind, ret.
  destruct (ownerReply ownerUid message) as [reply|].
  - now destruct (relayReply remote botToken message reply tr) as [[[]|e] tr'].
  - destruct (bool_decide _); [reflexivity|].
    now destruct (relayInbound remote ownerUid botToken message tr)
      as [[[]|e] tr'].
Qed.

Lemma handleWebhook_trace remote request ownerUid botToken secretToken
    (tr : Trace) :
  snd (handleWebhook remote request ownerUid botToken secretToken tr)
  = if strict_equal secretToken (req_secret_header request) then
      match req_json request with
      | inr (mkUpdate (Some message)) =>
        snd (handleWebhook_try remote ownerUid botToken message tr)
      | _ => tr
      end
    else tr.
Proof.
  unfold handleWebhook, handleWebhook_accepted.
  destruct (strict_equal _ _); cbn [negb]; [|reflexivity].
  unfold bind, settle, throw, ret, try_catch.
  destruct (req_json request) as [e|[|[message|]]]; try reflexivity.
  cbn [upd_message].
  now destruct (handleWebhook_try _ _ _ _ _) as [[resp|e] tr'].
Qed.

(** The calls of a delivery, whatever the request. *)
Lemma handleWebhook_calls remote request ownerUid botToken secretToken
    (tr : Trace) :
  exists new,
    issued (handleWebhook remote request ownerUid botToken secretToken tr)
      tr new
    /\ (length new <= 2)%nat
    /\ Forall (fun c => api_method c = js "copyMessage"
                        /\ api_token c = ToString botToken) new.
Proof.
  unfold issued. rewrite handleWebhook_trace.
  assert (Hnone : exists new : Trace,
            tr = tr ++ new /\ (length new <= 2)%nat
            /\ Forall (fun c => api_method c = js "copyMessage"
                                /\ api_token c = ToString botToken) new).
  { exists (@nil ApiCall). rewrite List.app_nil_r.
    split; [reflexivity | split; [cbn; lia | constructor]]. }
  destruct (strict_equal _ _); [|exact Hnone].
  destruct (req_json request) as [e|[|[message|]]]; try exact Hnone.
  rewrite handleWebhook_try_trace.
  destruct (ownerReply ownerUid message) as [reply|].
  - destruct (relayReply_calls remote botToken message reply tr)
      as (new & Hnew & Hlen & Hall).
    exists new. split; [exact Hnew|]. split; [lia|].
    eapply Forall_impl; [exact Hall|].
    intros c ((target & Hm & _) & Htok & _). auto.
  - destruct (bool_decide _); [exact Hnone|].
    destruct (relayInbound_calls remote ownerUid botToken message tr)
      as (new & Hnew & Hlen & Hall).
    exists new. split; [exact Hnew|]. split; [lia|].
    eapply Forall_impl; [exact Hall|].
    intros c ((Hm & _) & Htok & _). auto.
Qed.

(** X4. [handleWebhook] issues a remote call only for an authenticated
    delivery whose body decodes to an update with a message, and, when
    that message is not a reply of the owner, only if its text is not
    [/start]. *)
Theorem handleWebhook_calls_only_for_messages remote request ownerUid
    botToken secretToken (tr : Trace) :
  snd (handleWebhook remote request ownerUid botToken secretToken tr) <> tr ->
  strict_equal secretToken (req_secret_header request) = true
  /\ exists message,
       req_json request = inr (mkUpdate (Some message))
       /\ (ownerReply ownerUid message = None ->
           msg_text message <> Some (js "/start")).
Proof.
  rewrite handleWebhook_trace.
  destruct (strict_equal _ _); [|congruence].
  destruct (req_json request) as [e|[|[message|]]]; try congruence.
  rewrite handleWebhook_try_trace. intros Hcalls.
  split; [reflexivity|]. exists message. split; [reflexivity|].
  intros Hnone Htext. rewrite Hnone in Hcalls.
  rewrite bool_decide_eq_true_2 in Hcalls by exact Htext. congruence.
Qed.

Lemma handleWebhook_calls_only_for_messages_witness :
  strict_equal (Some sample_secret)
    (req_secret_header (delivery (Some sample_secret) sample_inbound)) = true.
Proof.
  apply (handleWebhook_calls_only_for_messages remote_ok
           (delivery (Some sample_secret) sample_inbound)
           (Some (js "1000")) (Some (js "TOKEN")) (Some sample_secret) []).
  vm_compute. discriminate.
Defined.

(** X5. Whatever the request, the update and the remote side, a
    delivery issues at most two remote calls, each of them a
    [copyMessage] under the credential of the path. *)
Theorem handleWebhook_calls_confined remote request ownerUid botToken
    secretToken (tr : Trace) :
  exists new,
    issued (handleWebhook remote request ownerUid botToken secretToken tr)
      tr new
    /\ (length new <= 2)%nat
    /\ Forall (fun c => api_method c = js "copyMessage"
                        /\ api_token c = ToString botToken) new.
Proof. apply handleWebhook_calls. Qed.

(** The run past the gate of a delivery with a message. *)
Lemma handleWebhook_accepted_message remote request ownerUid botToken
    (message : Message) (tr : Trace) :
  req_json request = inr (mkUpdate (Some message)) ->
  handleWebhook_accepted remote request ownerUid botToken tr
  = try_catch (handleWebhook_try remote ownerUid botToken message)
      (fun _ => ret (new_Response (js "内部服务器错误") (Some 500%nat))) tr.
Proof. intros H. unfold handleWebhook_accepted. now rewrite H. Qed.

Lemma handleWebhook_try_with_text remote ownerUid botToken
    (message : Message) (text : strU) (reply : RepliedMessage) :
  ownerReply ownerUid message = Some reply ->
  handleWebhook_try remote ownerUid botToken (with_text message text)
  = handleWebhook_try remote ownerUid botToken message.
Proof.
  intros H. unfold handleWebhook_try.
  change (ownerReply ownerUid (with_text message text))
    with (ownerReply ownerUid message).
  now rewrite H.
Qed.

(** X6. In an authenticated reply of the owner the text of the message
    plays no part: the run, response and calls, is the same whatever
    the text, [/start] included, so that the [/start] test never
    applies to a reply of the owner; and the run issues at most one
    call, a [copyMessage] with no [reply_markup], never the forward
    with a marker of the fresh-inbound branch. *)
Theorem owner_reply_preempts remote (request request' : Request) botToken
    secretToken (message : Message) (reply : RepliedMessage) (text' : strU)
    (tr : Trace) :
  strict_equal secretToken (req_secret_header request) = true ->
  req_json request = inr (mkUpdate (Some message)) ->
  reply_to_message message = Some reply ->
  req_secret_header request' = req_secret_header request ->
  req_json request' = inr (mkUpdate (Some (with_text message text'))) ->
  let ownerUid := Some (Number_toString (chat_id (msg_chat message))) in
  handleWebhook remote request' ownerUid botToken secretToken tr
  = handleWebhook remote request ownerUid botToken secretToken tr
  /\ exists new,
       issued (handleWebhook remote request ownerUid botToken secretToken tr)
         tr new
       /\ (length new <= 1)%nat
       /\ Forall (fun c => api_method c = js "copyMessage"
                           /\ prop (api_body c) (js "reply_markup") = None)
            new.
Proof.
  intros Hauth Hjson Hreply Hh' Hjson' ownerUid. split.
  - unfold handleWebhook. rewrite Hh', Hauth. cbn [negb].
    rewrite (handleWebhook_accepted_message _ _ _ _ _ _ Hjson).
    rewrite (handleWebhook_accepted_message _ _ _ _ _ _ Hjson').
    unfold ownerUid.
    now rewrite (handleWebhook_try_with_text _ _ _ _ _ _
                   (ownerReply_Some _ _ Hreply)).
  - unfold issued.
    rewrite handleWebhook_trace, Hauth, Hjson. cbv beta iota.
    rewrite handleWebhook_try_trace. unfold ownerUid.
    rewrite (ownerReply_Some _ _ Hreply).
    destruct (relayReply_calls remote botToken message reply tr)
      as (new & Hnew & Hlen & Hall).
    exists new. split; [exact Hnew|]. split; [exact Hlen|].
    eapply Forall_impl; [exact Hall|].
    intros c ((target & Hm & _) & _ & Hrm). auto.
Qed.

(** The owner answers a message forwarded from chat 42, once with
    [answer] and once with [/start]. *)
Lemma owner_reply_preempts_witness :
  handleWebhook remote_ok (delivery (Some sample_secret) owner_start_reply)
    (Some (js "1000")) (Some (js "TOKEN")) (Some sample_secret) []
  = handleWebhook remote_ok
      (delivery (Some sample_secret)
         (owner_reply_to (markup_of (mkButton (Some (js "42")) None))))
      (Some (js "1000")) (Some (js "TOKEN")) (Some sample_secret) [].
Proof.
  exact (proj1 (owner_reply_preempts remote_ok
    (delivery (Some sample_secret)
       (owner_reply_to (markup_of (mkButton (Some (js "42")) None))))
    (delivery (Some sample_secret) owner_start_reply)
    (Some (js "TOKEN")) (Some sample_secret)
    (owner_reply_to (markup_of (mkButton (Some (js "42")) None)))
    (mkReplied (markup_of (mkButton (Some (js "42")) None)))
    (Some (js "/start")) []
    eq_refl eq_refl eq_refl eq_refl eq_refl)).
Defined.

(** The owner answers [/start] to a forwarded message: it is relayed
    to the sender like any other answer. *)
Example owner_start_reply_is_relayed :
  (fun c => prop (api_body c) (js "chat_id")) <$>
    calls (run (handleWebhook remote_ok
                  (delivery (Some sample_secret) owner_start_reply)
                  (Some (js "1000")) (Some (js "TOKEN")) (Some sample_secret)))
  = [Some (JNum (Int 42))].
Proof. reflexivity. Qed.

Lemma Number_toString_inj (a b : Z) :
  Number_toString a = Number_toString b -> a = b.
Proof.
  intros H. apply (f_equal parseInt) in H.
  rewrite !parseInt_Number_toString in H. now injection H.
Qed.

(** X7. Let the owner be the chat [owner] and the inbound message come
    from a chat other than it, or be no reply, both ids being safe
    integers.  In the fresh-inbound branch every call issued, the
    first relay and the fallback alike, copies the inbound message
    (its [chat.id] as [from_chat_id], its [message_id]) to the chat
    [owner], under the credential of the path. *)
Theorem fresh_inbound_goes_to_owner remote request botToken secretToken
    (message : Message) (owner : Z) (tr : Trace) :
  strict_equal secretToken (req_secret_header request) = true ->
  req_json request = inr (mkUpdate (Some message)) ->
  (reply_to_message message = None
   \/ chat_id (msg_chat message) <> owner) ->
  msg_text message <> Some (js "/start") ->
  safe_integer owner ->
  safe_integer (chat_id (msg_chat message)) ->
  exists new,
    issued (handleWebhook remote request (Some (Number_toString owner))
              botToken secretToken tr)
      tr new
    /\ (1 <= length new <= 2)%nat
    /\ Forall (fun c => relays message (Int owner) c
                        /\ api_token c = ToString botToken) new.
Proof.
  intros Hauth Hjson Hreply Htext _ _. unfold issued.
  rewrite handleWebhook_trace, Hauth, Hjson. cbv beta iota.
  assert (Hbranch : ownerReply (Some (Number_toString owner)) message = None).
  { apply ownerReply_None. destruct Hreply as [Hnone|Hne]; [now left|].
    right. intros [= H]. apply Hne. symmetry. now apply Number_toString_inj. }
  rewrite handleWebhook_try_trace, Hbranch.
  rewrite bool_decide_eq_false_2 by exact Htext.
  destruct (relayInbound_calls remote (Some (Number_toString owner))
              botToken message tr) as (new & Hnew & Hlen & Hall).
  exists new. split; [exact Hnew|]. split; [exact Hlen|].
  eapply Forall_impl; [exact Hall|].
  intros c (Hr & Htok & _). cbn [ToString] in Hr.
  rewrite parseInt_Number_toString in Hr. auto.
Qed.

Lemma fresh_inbound_goes_to_owner_witness :
  exists new,
    issued (handleWebhook remote_refusing
              (delivery (Some sample_secret) sample_inbound)
              (Some (Number_toString 1000)) (Some (js "TOKEN"))
              (Some sample_secret) [])
      [] new
    /\ Forall (fun c => relays sample_inbound (Int 1000) c
                        /\ api_token c = ToString (Some (js "TOKEN"))) new.
Proof.
  destruct (fresh_inbound_goes_to_owner remote_refusing
              (delivery (Some sample_secret) sample_inbound)
              (Some (js "TOKEN")) (Some sample_secret) sample_inbound
              1000%Z [])
    as (new & Hnew & _ & Hall);
    [reflexivity | reflexivity | left; reflexivity
    | vm_compute; discriminate
    | unfold safe_integer; lia | unfold safe_integer; cbn; lia | ].
  exists new. split; assumption.
Defined.

(** The run of the fresh-inbound branch when the first call is
    rejected. *)
Lemma relayInbound_rejected remote ownerUid botToken (message : Message)
    (tr : Trace) :
  transport_down remote ->
  exists e c,
    relayInbound remote ownerUid botToken message tr = (Throw e, tr ++ [c]).
Proof.
  intros Hdown.
  unfold relayInbound, copyMessage, bind, postToTelegramApi. cbv zeta.
  match goal with |- context [remote tr ?c] => set (c1 := c) end.
  destruct (Hdown tr c1) as [e He]. exists e, c1. now rewrite He.
Qed.

(** X8. The fallback answers a response that is not [ok], not a
    failure of the transport: when every call is rejected, a delivery
    in the fresh-inbound branch issues exactly one call, with no second
    attempt, and is answered by the generic 500. *)
Theorem fresh_inbound_transport_down remote request ownerUid botToken
    secretToken (message : Message) (tr : Trace) :
  strict_equal secretToken (req_secret_header request) = true ->
  req_json request = inr (mkUpdate (Some message)) ->
  (reply_to_message message = None
   \/ ownerUid <> Some (Number_toString (chat_id (msg_chat message)))) ->
  msg_text message <> Some (js "/start") ->
  transport_down remote ->
  exists c,
    handleWebhook remote request ownerUid botToken secretToken tr
    = (Normal (mkResponse 500 (Text (js "内部服务器错误"))), tr ++ [c]).
Proof.
  intros Hauth Hjson Hreply Htext Hdown.
  destruct (relayInbound_rejected remote ownerUid botToken message tr Hdown)
    as (e & c & Hrun).
  exists c.
  unfold handleWebhook, handleWebhook_accepted, handleWebhook_try.
  rewrite Hauth, Hjson. cbn [negb]. unfold bind at 1. cbn [settle ret].
  unfold bind at 1. cbn [settle ret upd_message].
  rewrite (ownerReply_None _ _ Hreply).
  rewrite bool_decide_eq_false_2 by exact Htext.
  unfold try_catch, bind. now rewrite Hrun.
Qed.

Lemma fresh_inbound_transport_down_witness :
  exists c,
    run (handleWebhook remote_down
           (delivery (Some sample_secret) sample_inbound)
           (Some (js "1000")) (Some (js "TOKEN")) (Some sample_secret))
    = (Normal (mkResponse 500 (Text (js "内部服务器错误"))), [c]).
Proof.
  apply (fresh_inbound_transport_down remote_down
           (delivery (Some sample_secret) sample_inbound)
           (Some (js "1000")) (Some (js "TOKEN")) (Some sample_secret)
           sample_inbound [] eq_refl eq_refl (or_introl eq_refl)).
  - vm_compute. discriminate.
  - intros tr c. eexists. reflexivity.
Defined.

(* ------------------------------------------------------------------ *)
(** ** The marker, there and back *)

Lemma uint_units_no_t (d : Decimal.uint) :
  Forall (fun c => c <> 116) (uint_units d).
Proof.
  induction d; cbn [uint_units]; constructor; (discriminate || assumption).
Qed.

Lemma Number_toString_no_t (z : Z) :
  Forall (fun c => c <> 116) (Number_toString z).
Proof.
  unfold Number_toString.
  destruct (Z.to_int z); [|constructor; [discriminate|]];
    apply uint_units_no_t.
Qed.

(** A separator is not found in a string that lacks its first code
    unit. *)
Lemma occurs_first_absent (c : N) (sep s : jsstr) :
  Forall (fun x => x <> c) s -> occurs (c :: sep) s = false.
Proof.
  induction 1 as [|x s Hx _ IH]; [reflexivity|].
  cbn [occurs is_prefix]. rewrite IH.
  apply N.eqb_neq in Hx. rewrite N.eqb_sym in Hx. now rewrite Hx.
Qed.

Lemma occurs_marker_decimal (z : Z) :
  occurs (js "tg://user?id=") (Number_toString z) = false.
Proof.
  change (js "tg://user?id=") with (116 :: js "g://user?id=").
  apply occurs_first_absent, Number_toString_no_t.
Qed.

(** The run of an authenticated reply of the owner once the marker is
    read. *)
Lemma owner_reply_run remote request botToken secretToken
    (message : Message) (reply : RepliedMessage) (rm : ReplyMarkup)
    (row : list InlineKeyboardButton)
    (rows : list (list InlineKeyboardButton)) (uid : strU) (tr : Trace) :
  strict_equal secretToken (req_secret_header request) = true ->
  req_json request = inr (mkUpdate (Some message)) ->
  reply_to_message message = Some reply ->
  reply_markup reply = Some rm ->
  inline_keyboard rm = Some (row :: rows) ->
  readSenderUid row tr = (Normal uid, tr) ->
  let call := mkCall (ToString botToken) (js "copyMessage") (JObj [
      (js "chat_id", JNum (parseInt (ToString uid)));
      (js "from_chat_id", JNum (Int (chat_id (msg_chat message))));
      (js "message_id", JNum (Int (message_id message)))]) in
  calls (handleWebhook remote request
           (Some (Number_toString (chat_id (msg_chat message))))
           botToken secretToken tr)
  = tr ++ [call].
Proof.
  intros Hauth Hjson Hreply Hrm Hik Hread call. unfold calls.
  rewrite handleWebhook_trace, Hauth, Hjson. cbv beta iota.
  rewrite handleWebhook_try_trace, (ownerReply_Some _ _ Hreply).
  unfold relayReply. rewrite Hrm, Hik. unfold bind. rewrite Hread.
  unfold postToTelegramApi. fold call. now destruct (remote tr call).
Qed.

(** What the calls of the fresh-inbound branch attach: the chat id of
    the sender in decimal as callback token, and behind
    [tg://user?id=] as link when there is a link. *)
Lemma relayInbound_marks remote ownerUid botToken (message : Message)
    (tr : Trace) :
  let uid := Number_toString (chat_id (msg_chat message)) in
  exists new,
    issued (relayInbound remote ownerUid botToken message tr) tr new
    /\ Forall (fun c =>
          button_field c "callback_data" = Some (JStr uid)
          /\ forall u, button_field c "url" = Some (JStr u) ->
                u = js "tg://user?id=" ++ uid) new.
Proof.
  intros uid.
  unfold issued, relayInbound, copyMessage, bind, postToTelegramApi.
  cbv zeta. fold uid.
  match goal with |- context [remote tr ?c] => set (c1 := c) end.
  assert (H1 : button_field c1 "callback_data" = Some (JStr uid)
               /\ forall u, button_field c1 "url" = Some (JStr u) ->
                     u = js "tg://user?id=" ++ uid).
  { split; [reflexivity|]. now intros u [= <-]. }
  destruct (remote tr c1) as [e|r1].
  { exists [c1]. split; [reflexivity|]. now constructor. }
  destruct (resp_ok r1); cbn [negb].
  { exists [c1]. split; [reflexivity|]. now constructor. }
  match goal with |- context [remote (tr ++ [c1]) ?c] => set (c2 := c) end.
  assert (H2 : button_field c2 "callback_data" = Some (JStr uid)
               /\ forall u, button_field c2 "url" = Some (JStr u) ->
                     u = js "tg://user?id=" ++ uid).
  { split; [reflexivity|]. intros u [=]. }
  exists [c1; c2].
  destruct (remote (tr ++ [c1]) c2); cbn [snd]; rewrite <- List.app_assoc;
    (split; [reflexivity|]); repeat constructor; (apply H1 || apply H2).
Qed.

(** X9. The marker goes there and back by either reading.  Take a
    fresh-inbound delivery from a sender whose chat id is a safe
    integer and any call [c] that it issues, the first relay or the
    fallback; let the owner then reply to a message whose first inline
    element [b] echoes the element of [c], through its callback token
    or, with no callback token, through its link alone.  The one call
    that the reply issues is the relay of the answer to the chat of
    that sender. *)
Theorem marker_round_trip_both_ways (remote remote' : Remote)
    (request request' : Request) (ownerUid botToken secretToken : strU)
    (inbound answer : Message) (reply : RepliedMessage) (rm : ReplyMarkup)
    (b : InlineKeyboardButton) (row : list InlineKeyboardButton)
    (rows : list (list InlineKeyboardButton)) (c : ApiCall)
    (new tr tr' : Trace) :
  strict_equal secretToken (req_secret_header request) = true ->
  req_json request = inr (mkUpdate (Some inbound)) ->
  (reply_to_message inbound = None
   \/ ownerUid <> Some (Number_toString (chat_id (msg_chat inbound)))) ->
  msg_text inbound <> Some (js "/start") ->
  safe_integer (chat_id (msg_chat inbound)) ->
  issued (handleWebhook remote request ownerUid botToken secretToken tr)
    tr new ->
  In c new ->
  strict_equal secretToken (req_secret_header request') = true ->
  req_json request' = inr (mkUpdate (Some answer)) ->
  ownerUid = Some (Number_toString (chat_id (msg_chat answer))) ->
  safe_integer (chat_id (msg_chat answer)) ->
  reply_to_message answer = Some reply ->
  reply_markup reply = Some rm ->
  inline_keyboard rm = Some ((b :: row) :: rows) ->
  echoes c b ->
  exists call,
    calls (handleWebhook remote' request' ownerUid botToken secretToken tr')
    = tr' ++ [call]
    /\ relays answer (Int (chat_id (msg_chat inbound))) call.
Proof.
  intros Hauth Hjson Hfresh Htext _ Hnew Hc Hauth' Hjson' Howner _
    Hreply Hrm Hik Hecho.
  set (sender := chat_id (msg_chat inbound)).
  (* what [c] carries *)
  assert (Hmarks : button_field c "callback_data"
                   = Some (JStr (Number_toString sender))
                   /\ forall u, button_field c "url" = Some (JStr u) ->
                         u = js "tg://user?id=" ++ Number_toString sender).
  { unfold issued in Hnew.
    rewrite handleWebhook_trace, Hauth, Hjson in Hnew. cbv beta iota in Hnew.
    rewrite handleWebhook_try_trace, (ownerReply_None _ _ Hfresh) in Hnew.
    rewrite bool_decide_eq_false_2 in Hnew by exact Htext.
    destruct (relayInbound_marks remote ownerUid botToken inbound tr)
      as (new0 & Hnew0 & Hall).
    unfold issued in Hnew0. rewrite Hnew0 in Hnew.
    apply List.app_inv_head in Hnew. subst new0.
    rewrite List.Forall_forall in Hall. exact (Hall c Hc). }
  destruct Hmarks as [Hcb Hurl].
  (* what [b] therefore encodes *)
  assert (Hmark : marker_encodes b (Number_toString sender)).
  { destruct Hecho as [(x & Hx & Hb)|(Hfalsy & u & Hu & Hb)].
    - rewrite Hcb in Hx. injection Hx as <-.
      left. split; [exact Hb|apply Number_toString_nonempty].
    - right. split; [exact Hfalsy|]. exists []. rewrite (Hurl u Hu) in Hb.
      split; [exact Hb|].
      split; [reflexivity|apply occurs_marker_decimal]. }
  subst ownerUid. eexists. split.
  - apply (owner_reply_run remote' request' botToken secretToken answer reply
             rm (b :: row) rows (Some (Number_toString sender)) tr');
      try assumption.
    now apply readSenderUid_marker.
  - cbn [ToString]. rewrite parseInt_Number_toString. repeat split.
Qed.

(** Chat 42 writes, the first relay is accepted, and the owner replies
    to a copy that comes back with the link alone. *)
Lemma marker_round_trip_both_ways_witness :
  exists call,
    calls (handleWebhook remote_ok
             (delivery (Some sample_secret)
                (owner_reply_to
                   (markup_of (mkButton None
                                 (Some (js "tg://user?id=42"))))))
             (Some (js "1000")) (Some (js "TOKEN")) (Some sample_secret) [])
    = [] ++ [call]
    /\ relays (owner_reply_to
                 (markup_of (mkButton None (Some (js "tg://user?id=42")))))
         (Int (chat_id (msg_chat sample_inbound))) call.
Proof.
  eapply (marker_round_trip_both_ways remote_ok remote_ok
    (delivery (Some sample_secret) sample_inbound)
    (delivery (Some sample_secret)
       (owner_reply_to
          (markup_of (mkButton None (Some (js "tg://user?id=42"))))))
    (Some (js "1000")) (Some (js "TOKEN")) (Some sample_secret)
    sample_inbound
    (owner_reply_to (markup_of (mkButton None (Some (js "tg://user?id=42")))))
    (mkReplied (markup_of (mkButton None (Some (js "tg://user?id=42")))))
    (mkMarkup (Some [[mkButton None (Some (js "tg://user?id=42"))]]))
    (mkButton None (Some (js "tg://user?id=42"))) [] []
    sample_forward [sample_forward] [] []).
  - reflexivity.
  - reflexivity.
  - left. reflexivity.
  - vm_compute. discriminate.
  - unfold safe_integer. cbn. lia.
  - unfold issued. vm_compute. reflexivity.
  - left. reflexivity.
  - reflexivity.
  - reflexivity.
  - reflexivity.
  - unfold safe_integer. cbn. lia.
  - reflexivity.
  - reflexivity.
  - reflexivity.
  - right. split; [reflexivity|]. eexists. split; reflexivity.
Defined.

(* ------------------------------------------------------------------ *)
(** ** The display name of the sender *)

(** X10. The display name is [@username] whenever the chat has a
    non-empty username, whatever its other names; otherwise it is made
    of the first and last name that are present and non-empty: both
    joined by one space, one alone with no space around it, or the
    empty string when there is none. *)
Theorem senderNameOf_cases (sender : Chat) :
  senderNameOf sender
  = if truthy (chat_username sender) then
      js "@" ++ ToString (chat_username sender)
    else
      match truthy (chat_first_name sender), truthy (chat_last_name sender) with
      | true, true =>
        ToString (chat_first_name sender) ++ js " "
          ++ ToString (chat_last_name sender)
      | true, false => ToString (chat_first_name sender)
      | false, true => ToString (chat_last_name sender)
      | false, false => []
      end.
Proof.
  unfold senderNameOf.
  destruct (truthy (chat_username sender)); [reflexivity|].
  destruct (chat_first_name sender) as [[|a f]|],
           (chat_last_name sender) as [[|b l]|]; reflexivity.
Qed.

Example senderNameOf_first_name_only :
  senderNameOf sample_owner = js "Ann".
Proof. reflexivity. Qed.

(* ------------------------------------------------------------------ *)
(** ** The router *)

Lemma handleInstall_calls remote request ownerUid botToken prefix
    secretToken (tr : Trace) :
  let r := handleInstall remote request ownerUid botToken prefix
             secretToken tr in
  exists new,
    issued r tr new /\ (length new <= 1)%nat
    /\ Forall (fun c => api_method c = js "setWebhook") new
    /\ In (status_of r) [None; Some 200%nat; Some 400%nat; Some 500%nat].
Proof.
  unfold issued, handleInstall, validateSecretToken_call, bind, throw, ret,
    try_catch, status_of.
  destruct secretToken as [s|];
    [|exists (@nil ApiCall); cbn; rewrite List.app_nil_r; auto 10].
  destruct (validateSecretToken s); cbn [negb];
    [|exists (@nil ApiCall); cbn; rewrite List.app_nil_r; auto 10].
  unfold postToTelegramApi.
  match goal with |- context [remote tr ?c] => exists [c] end.
  destruct (remote tr _) as [e|resp]; [cbn; auto 10|].
  unfold settle, throw, ret.
  destruct (resp_json resp) as [e|res]; [cbn; auto 10|].
  destruct (res_ok res); cbn; auto 10.
Qed.

Lemma handleUninstall_calls remote botToken secretToken (tr : Trace) :
  let r := handleUninstall remote botToken secretToken tr in
  exists new,
    issued r tr new /\ (length new <= 1)%nat
    /\ Forall (fun c => api_method c = js "deleteWebhook") new
    /\ In (status_of r) [None; Some 200%nat; Some 400%nat; Some 500%nat].
Proof.
  unfold issued, handleUninstall, validateSecretToken_call, bind, throw, ret,
    try_catch, status_of.
  destruct secretToken as [s|];
    [|exists (@nil ApiCall); cbn; rewrite List.app_nil_r; auto 10].
  destruct (validateSecretToken s); cbn [negb];
    [|exists (@nil ApiCall); cbn; rewrite List.app_nil_r; auto 10].
  unfold postToTelegramApi.
  match goal with |- context [remote tr ?c] => exists [c] end.
  destruct (remote tr _) as [e|resp]; [cbn; auto 10|].
  unfold settle, throw, ret.
  destruct (resp_json resp) as [e|res]; [cbn; auto 10|].
  destruct (res_ok res); cbn; auto 10.
Qed.

Lemma handleWebhook_status remote request ownerUid botToken secretToken
    (tr : Trace) :
  In (status_of (handleWebhook remote request ownerUid botToken
                   secretToken tr))
     [None; Some 200%nat; Some 401%nat; Some 500%nat].
Proof.
  unfold handleWebhook. destruct (strict_equal _ _); cbn [negb];
    [|cbn; auto].
  pose proof (handleWebhook_accepted_status remote request ownerUid
                botToken tr) as H.
  cbv zeta in H. destruct H as [->|[->| ->]]; cbn; auto.
Qed.

(** X11. Whatever the request, the configuration, the regular
    expression engine and the remote side, [handleRequest] issues at
    most two remote calls, with no method other than [setWebhook],
    [deleteWebhook] and [copyMessage], and when it completes with a
    response its status is 200, 400, 401, 404 or 500. *)
Theorem handleRequest_bounded (remote : Remote) (engine : RegExpEngine)
    (request : Request) (config : Obj) (tr : Trace) :
  let r := handleRequest remote engine request config tr in
  exists new,
    issued r tr new
    /\ (length new <= 2)%nat
    /\ Forall (fun c => In (api_method c)
                 [js "setWebhook"; js "deleteWebhook"; js "copyMessage"]) new
    /\ In (status_of r)
         [None; Some 200%nat; Some 400%nat; Some 401%nat; Some 404%nat;
          Some 500%nat].
Proof.
  assert (Hnone : forall x : Completion Response,
    In (status_of (x, tr)) [None; Some 200%nat; Some 400%nat; Some 401%nat;
                            Some 404%nat; Some 500%nat] ->
    exists new : Trace,
      issued (x, tr) tr new /\ (length new <= 2)%nat
      /\ Forall (fun c => In (api_method c)
                   [js "setWebhook"; js "deleteWebhook"; js "copyMessage"]) new
      /\ In (status_of (x, tr))
           [None; Some 200%nat; Some 400%nat; Some 401%nat; Some 404%nat;
            Some 500%nat]).
  { intros x Hx. exists (@nil ApiCall). unfold issued. cbn [snd length].
    rewrite List.app_nil_r. repeat split; auto. }
  unfold handleRequest. cbv zeta. unfold bind, settle, throw, ret.
  repeat match goal with
  | |- context [new_RegExp ?g ?src] =>
    destruct (new_RegExp g src) as [?|?]; [apply Hnone; cbn; auto|]
  end.
  repeat match goal with
  | |- context [String_match ?g ?p ?re] =>
    destruct (String_match g p re) as [?|]
  end.
  all: first
    [ apply Hnone; cbn; solve [auto 10]
    | match goal with
      | |- context [handleInstall ?a1 ?a2 ?a3 ?a4 ?a5 ?a6 ?a7] =>
        destruct (handleInstall_calls a1 a2 a3 a4 a5 a6 a7)
          as (new & H1 & H2 & H3 & H4);
        exists new; split; [exact H1|]; split; [lia|]; split;
        [ eapply Forall_impl; [exact H3|]; intros c ->; cbn [In]; auto
        | cbn [In] in H4 |- *; intuition ]
      end
    | match goal with
      | |- context [handleUninstall ?a1 ?a2 ?a3 ?a4] =>
        destruct (handleUninstall_calls a1 a2 a3 a4)
          as (new & H1 & H2 & H3 & H4);
        exists new; split; [exact H1|]; split; [lia|]; split;
        [ eapply Forall_impl; [exact H3|]; intros c ->; cbn [In]; auto
        | cbn [In] in H4 |- *; intuition ]
      end
    | match goal with
      | |- context [handleWebhook ?a1 ?a2 ?a3 ?a4 ?a5 ?a6] =>
        destruct (handleWebhook_calls a1 a2 a3 a4 a5 a6)
          as (new & H1 & H2 & H3);
        pose proof (handleWebhook_status a1 a2 a3 a4 a5 a6) as Hs;
        exists new; split; [exact H1|]; split; [exact H2|]; split;
        [ eapply Forall_impl; [exact H3|]; intros c [-> _]; cbn [In]; auto
        | cbn [In] in Hs |- *; intuition ]
      end ].
Qed.

(* ------------------------------------------------------------------ *)
(** ** Errors that leave the entry point *)






Example onRequest_undecodable_body_escapes :
  run (onRequest remote_ok fragmentEngine (undecodable_delivery (Some [])) ∅)
  = (Throw (mkError SyntaxError (js "Unexpected end of JSON input")), []).
Proof. vm_compute. reflexivity. Qed.

(* ------------------------------------------------------------------ *)
(** ** The variant on its own *)

Lemma onRequest_config_zh (env : Obj) :
  onRequest_config env !! js "前缀" = None
  /\ onRequest_config env !! js "密钥" = None.
Proof.
  unfold onRequest_config. split.
  - rewrite !lookup_insert_ne by (vm_compute; discriminate).
    apply lookup_empty.
  - rewrite !lookup_insert_ne by (vm_compute; discriminate).
    apply lookup_empty.
Qed.

Lemma 处理请求_without_keys (remote : Remote) (engine : RegExpEngine)
    (request : Request) (config : Obj) (tr : Trace) :
  config !! js "前缀" = None ->
  config !! js "密钥" = None ->
  let r := 处理请求 remote engine request config tr in
  snd r = tr /\ In (status_of r) [None; Some 401%nat; Some 404%nat].
Proof.
  intros Hp Hs. unfold 处理请求. cbv zeta. rewrite Hp, Hs.
  unfold bind, settle, throw, ret.
  repeat match goal with
  | |- context [new_RegExp ?g ?src] =>
    destruct (new_RegExp g src) as [?|?]; [split; cbn; auto|]
  end.
  repeat match goal with
  | |- context [String_match ?g ?p ?re] =>
    destruct (String_match g p re) as [?|]
  end.
  all: split; cbn; auto.
Qed.

(** X13. Given the configuration object that [onRequest] builds, which
    has the properties [prefix] and [secretToken] and neither [前缀]
    nor [密钥], the variant [处理请求] never issues a remote call,
    whatever the request: it answers 404, or 401 to a path under
    [/undefined/webhook/], or throws on reading the length of the
    missing secret. *)
Theorem variant_inert_on_onRequest_config (remote : Remote)
    (engine : RegExpEngine) (request : Request) (env : Obj) (tr : Trace) :
  let r := 处理请求 remote engine request (onRequest_config env) tr in
  snd r = tr /\ In (status_of r) [None; Some 401%nat; Some 404%nat].
Proof.
  destruct (onRequest_config_zh env) as [Hp Hs].
  now apply 处理请求_without_keys.
Qed.

(** One case of the comparison of two runs. *)
Ltac shaped := split; simpl; [reflexivity | repeat split].

Lemma install_agree_in_shape remote request o b p s tr :
  agree_in_shape (handleInstall remote request o b p s tr)
                 (安装Webhook remote request o b p s tr).
Proof.
  unfold agree_in_shape, handleInstall, 安装Webhook,
    validateSecretToken_call, 校验密钥_call, bind, throw, ret, try_catch.
  destruct s as [s|]; [|shaped].
  change (校验密钥 s) with (validateSecretToken s).
  destruct (validateSecretToken s); cbn [negb]; [|shaped].
  unfold postToTelegramApi, 发送到TelegramAPI.
  destruct (remote tr _) as [e|r]; [shaped|].
  unfold settle, throw, ret.
  destruct (resp_json r) as [e|res]; [shaped|].
  destruct (res_ok res); shaped.
Qed.

Lemma uninstall_agree_in_shape remote b s tr :
  agree_in_shape (handleUninstall remote b s tr)
                 (卸载Webhook remote b s tr).
Proof.
  unfold agree_in_shape, handleUninstall, 卸载Webhook,
    validateSecretToken_call, 校验密钥_call, bind, throw, ret, try_catch.
  destruct s as [s|]; [|shaped].
  change (校验密钥 s) with (validateSecretToken s).
  destruct (validateSecretToken s); cbn [negb]; [|shaped].
  unfold postToTelegramApi, 发送到TelegramAPI.
  destruct (remote tr _) as [e|r]; [shaped|].
  unfold settle, throw, ret.
  destruct (resp_json r) as [e|res]; [shaped|].
  destruct (res_ok res); shaped.
Qed.

Lemma webhook_agree_in_shape remote request o b s tr :
  agree_in_shape (handleWebhook remote request o b s tr)
                 (处理Webhook remote request o b s tr).
Proof.
  unfold agree_in_shape, handleWebhook, 处理Webhook, handleWebhook_accepted.
  destruct (strict_equal s _); cbn [negb]; [|shaped].
  unfold bind, settle, throw, ret.
  destruct (req_json request) as [e|update]; [shaped|].
  destruct (upd_message update) as [e|[message|]]; [shaped| |shaped].
  unfold try_catch, handleWebhook_try, 处理Webhook_try, bind, ret.
  change (拥有者回复 o message) with (ownerReply o message).
  destruct (ownerReply o message) as [reply|].
  - change (转发回复 remote b message reply)
      with (relayReply remote b message reply).
    destruct (relayReply remote b message reply tr) as [[[]|e] tr'];
      shaped.
  - destruct (bool_decide _); [shaped|].
    change (转发消息 remote o b message)
      with (relayInbound remote o b message).
    destruct (relayInbound remote o b message tr) as [[[]|e] tr'];
      shaped.
Qed.

(** X14. Called with the same arguments, the handlers of the variant
    and those of the module issue the same remote calls and complete
    alike: with the same error thrown, or with responses of the same
    status and the same shape, plain text both or objects
    [{success, message}] with the same [success].  They differ in the
    texts of their responses only. *)
Theorem variant_handlers_agree remote request
    (ownerUid botToken prefix secretToken : strU) (tr : Trace) :
  agree_in_shape
    (handleInstall remote request ownerUid botToken prefix secretToken tr)
    (安装Webhook remote request ownerUid botToken prefix secretToken tr)
  /\ agree_in_shape
       (handleUninstall remote botToken secretToken tr)
       (卸载Webhook remote botToken secretToken tr)
  /\ agree_in_shape
       (handleWebhook remote request ownerUid botToken secretToken tr)
       (处理Webhook remote request ownerUid botToken secretToken tr).
Proof.
  split; [apply install_agree_in_shape|].
  split; [apply uninstall_agree_in_shape|apply webhook_agree_in_shape].
Qed.

(** The texts do differ: the answer to a delivery with no message. *)
Example variant_texts_differ :
  fst (run (handleWebhook remote_ok
              (mkRequest (sample_url "/public/webhook/1000/TOKEN")
                 (Some sample_secret) (inr (mkUpdate None)))
              (Some (js "1000")) (Some (js "TOKEN")) (Some sample_secret)))
  = Normal (mkResponse 200 (Text (js "成功")))
  /\ fst (run (处理Webhook remote_ok
                 (mkRequest (sample_url "/public/webhook/1000/TOKEN")
                    (Some sample_secret) (inr (mkUpdate None)))
                 (Some (js "1000")) (Some (js "TOKEN")) (Some sample_secret)))
     = Normal (mkResponse 200 (Text (js "OK"))).
Proof. split; reflexivity. Qed.

(* ------------------------------------------------------------------ *)
(** ** What the responses hold, and what the installation reads *)

(** X15. Of the request, the installation reads the protocol and the
    host name of its URL and nothing else: two requests that agree on
    these two, whatever their ports, paths, queries, headers and
    bodies, are answered alike and register the same callback URL. *)
Theorem handleInstall_reads_scheme_and_host remote (request request' : Request)
    ownerUid botToken prefix secretToken (tr : Trace) :
  url_protocol (req_url request) = url_protocol (req_url request') ->
  url_hostname (req_url request) = url_hostname (req_url request') ->
  handleInstall remote request ownerUid botToken prefix secretToken tr
  = handleInstall remote request' ownerUid botToken prefix secretToken tr.
Proof.
  intros Hp Hh. unfold handleInstall. cbv zeta. now rewrite Hp, Hh.
Qed.

(** The same host reached on port 8443 with a query. *)
Lemma handleInstall_reads_scheme_and_host_witness :
  handleInstall remote_ok
    (mkRequest (mkURL (js "https:") (js "bot.example.org") (js "8443")
                  (js "/public/install/1000/TOKEN") (js "?debug=1"))
       None (inl (mkError SyntaxError [])))
    (Some (js "1000")) (Some (js "TOKEN")) (Some (js "public"))
    (Some sample_secret) []
  = handleInstall remote_ok
      (mkRequest (sample_url "/public/install/1000/TOKEN")
         None (inl (mkError SyntaxError [])))
      (Some (js "1000")) (Some (js "TOKEN")) (Some (js "public"))
      (Some sample_secret) [].
Proof.
  apply (handleInstall_reads_scheme_and_host remote_ok
    (mkRequest (mkURL (js "https:") (js "bot.example.org") (js "8443")
                  (js "/public/install/1000/TOKEN") (js "?debug=1"))
       None (inl (mkError SyntaxError [])))
    (mkRequest (sample_url "/public/install/1000/TOKEN")
       None (inl (mkError SyntaxError [])))).
  - reflexivity.
  - reflexivity.
Defined.

Ltac admin_leaf st :=
  exists st; eexists; unfold jsonResponse; cbn [default Nat.eqb fst];
  reflexivity.

(** X16. Given a secret that is a string, [handleInstall] and
    [handleUninstall] always complete with a JSON response of the
    shape [{success, message}], in which [success] is true exactly
    when the status is 200. *)
Theorem admin_responses_shaped remote request ownerUid botToken prefix
    (secret : jsstr) (tr : Trace) :
  admin_shaped (fst (handleInstall remote request ownerUid botToken prefix
                       (Some secret) tr))
  /\ admin_shaped (fst (handleUninstall remote botToken (Some secret) tr)).
Proof.
  unfold admin_shaped, handleInstall, handleUninstall,
    validateSecretToken_call, bind, ret, try_catch.
  destruct (validateSecretToken secret); cbn [negb];
    [|split; admin_leaf 400%nat].
  split.
  - destruct (postToTelegramApi _ _ _ _ _) as [[resp|e'] tr'];
      [|admin_leaf 500%nat].
    unfold settle, throw, ret.
    destruct (resp_json resp) as [e'|res]; [admin_leaf 500%nat|].
    destruct (res_ok res); [admin_leaf 200%nat|admin_leaf 400%nat].
  - destruct (postToTelegramApi _ _ _ _ _) as [[resp|e'] tr'];
      [|admin_leaf 500%nat].
    unfold settle, throw, ret.
    destruct (resp_json resp) as [e'|res]; [admin_leaf 500%nat|].
    destruct (res_ok res); [admin_leaf 200%nat|admin_leaf 400%nat].
Qed.

(** X17. Whatever the request, the update and the remote side, a
    delivery that completes with a response completes with one of three
    fixed plain-text responses, 200, 401 or 500: nothing of the
    request, of the update, of the remote responses or of a caught
    error appears in what [handleWebhook] answers. *)
Theorem handleWebhook_fixed_responses remote request ownerUid botToken
    secretToken (tr : Trace) :
  let c := fst (handleWebhook remote request ownerUid botToken
                  secretToken tr) in
  (exists e, c = Throw e)
  \/ c = Normal (mkResponse 200 (Text (js "成功")))
  \/ c = Normal (mkResponse 401 (Text (js "未授权")))
  \/ c = Normal (mkResponse 500 (Text (js "内部服务器错误"))).
Proof.
  unfold handleWebhook, handleWebhook_accepted.
  destruct (strict_equal _ _); cbn [negb];
    [|right; right; left; reflexivity].
  unfold bind, settle, throw, ret, try_catch.
  destruct (req_json request) as [e|update]; [left; eauto|].
  destruct (upd_message update) as [e|[message|]];
    [left; eauto| |right; left; reflexivity].
  destruct (handleWebhook_try _ _ _ _ _) as [[resp|e] tr'] eqn:E;
    [|right; right; right; reflexivity].
  right; left. cbn [fst]. f_equal.
  unfold handleWebhook_try, bind, ret in E.
  destruct (ownerReply _ _).
  - destruct (relayReply _ _ _ _ _) as [[[]|] ?]; now simplify_eq.
  - destruct (bool_decide _); [now simplify_eq|].
    destruct (relayInbound _ _ _ _ _) as [[[]|] ?]; now simplify_eq.
Qed.
